(** * page4u-mcp: the request/response bridging layer of [src/index.ts]

    A shallow embedding of the seven tool handlers, of [apiRequest] and of
    the JavaScript operations they rely on, followed by the properties of
    the bridging layer.

    Conventions of the embedding.
    - A JavaScript string is a Rocq [string] holding its UTF-8 bytes: the
      strings of the embedding are the well-formed ones (a string with a
      lone surrogate, on which [encodeURIComponent] throws, has no UTF-8
      form).
    - A JavaScript number is an integer [Z] (counts, totals, limits); its
      decimal rendering is that of JavaScript for the safe integers, the
      integers strictly between -2^53 and 2^53, and the statements that
      print a number of the backend keep to them.
    - A parsed JSON object is the list of its properties, read by name.
    - A handler is a computation in the monad [M]: it threads the
      chronological trace of the effects it performed (calls on the AdmZip
      object, calls of [fetch]) and ends with a value or with a thrown
      exception. *)

From Stdlib Require Import String Ascii List ZArith Bool Lia.
From Stdlib Require Import DecimalString.
Import ListNotations.
Local Open Scope list_scope.
Local Open Scope string_scope.
Set Warnings "-register-all".

(** ** Text helpers *)

(** The line feed and the double quote, which the templates of the
    handlers contain. *)
Definition nl : string := String (ascii_of_nat 10) EmptyString.
Definition dq : string := String (ascii_of_nat 34) EmptyString.

(** [String(n)] and [`${n}`] for an integer number. *)
Definition Number_toString (n : Z) : string :=
  NilZero.string_of_int (Z.to_int n).

(** [Array.prototype.join] on an array of strings. *)
Definition join (sep : string) (l : list string) : string :=
  String.concat sep l.

Definition hex_digit (n : nat) : ascii :=
  ascii_of_nat (if Nat.ltb n 10 then 48 + n else 55 + n).

(** [%XX], upper-case, for one byte. *)
Definition percent_byte (c : ascii) : string :=
  let n := nat_of_ascii c in
  String "%" (String (hex_digit (n / 16)) (String (hex_digit (n mod 16)) EmptyString)).

Definition is_alnum (c : ascii) : bool :=
  let n := nat_of_ascii c in
  (Nat.leb 48 n && Nat.leb n 57) || (Nat.leb 65 n && Nat.leb n 90)
  || (Nat.leb 97 n && Nat.leb n 122).

Definition mem_ascii (c : ascii) (s : string) : bool :=
  existsb (Ascii.eqb c) (list_ascii_of_string s).

(** [encodeURIComponent]: every byte of the UTF-8 form is escaped, except
    the letters, the digits and [- _ . ! ~ * ' ( )]. *)
Fixpoint encodeURIComponent (s : string) : string :=
  match s with
  | EmptyString => EmptyString
  | String c rest =>
      (if is_alnum c || mem_ascii c "-_.!~*'()"
       then String c EmptyString
       else percent_byte c) ++ encodeURIComponent rest
  end.

(** The [application/x-www-form-urlencoded] byte serializer used by
    [URLSearchParams.prototype.toString]. *)
Fixpoint urlencoded (s : string) : string :=
  match s with
  | EmptyString => EmptyString
  | String c rest =>
      (if Ascii.eqb c " " then "+"
       else if is_alnum c || mem_ascii c "*-._"
       then String c EmptyString
       else percent_byte c) ++ urlencoded rest
  end.

(** [s.replace(/\/+$/, empty)]: the final run of slashes is removed. *)
Fixpoint strip_trailing_slashes (s : string) : string :=
  match s with
  | EmptyString => EmptyString
  | String c rest =>
      match strip_trailing_slashes rest with
      | EmptyString => if Ascii.eqb c "/" then EmptyString else String c EmptyString
      | rest' => String c rest'
      end
  end.

(** Truthiness of a string: only the empty string is falsy. *)
Definition truthy_str (s : string) : bool :=
  match s with EmptyString => false | _ => true end.

(** ** JavaScript values, as [JSON.parse] produces them *)

Inductive value : Type :=
| VUndefined
| VNull
| VBool (b : bool)
| VNum (n : Z)
| VStr (s : string)
| VArr (l : list value)
| VObj (o : list (string * value)).

(** Induction on a value through the elements of an array and the
    properties of an object. *)
Fixpoint value_induction (P : value -> Prop)
         (Hundefined : P VUndefined) (Hnull : P VNull)
         (Hbool : forall b, P (VBool b)) (Hnum : forall n, P (VNum n))
         (Hstr : forall s, P (VStr s))
         (Harr : forall l, Forall P l -> P (VArr l))
         (Hobj : forall o, Forall (fun kv => P (snd kv)) o -> P (VObj o))
         (v : value) : P v :=
  let rec := value_induction P Hundefined Hnull Hbool Hnum Hstr Harr Hobj in
  match v with
  | VUndefined => Hundefined
  | VNull => Hnull
  | VBool b => Hbool b
  | VNum n => Hnum n
  | VStr s => Hstr s
  | VArr l =>
      Harr l ((fix all (l : list value) : Forall P l :=
                 match l with
                 | [] => Forall_nil P
                 | x :: l' => Forall_cons x (rec x) (all l')
                 end) l)
  | VObj o =>
      Hobj o ((fix all (o : list (string * value)) : Forall (fun kv => P (snd kv)) o :=
                 match o with
                 | [] => Forall_nil _
                 | kv :: o' => Forall_cons kv (rec (snd kv)) (all o')
                 end) o)
  end.

(** The exceptions a call can end with. *)
Inductive Exn : Type :=
| JsError (message : string)        (* [new Error(message)] *)
| TypeError                         (* raised by the runtime: a property of
                                       undefined or null, a call of a
                                       non-function, a failed conversion *)
| SyntaxError                       (* [res.json()] on a body that is not JSON *)
| NetworkError                      (* a rejected [fetch] *)
| ValidationError (field : string). (* the schema rejects a parameter *)

Definition result (A : Type) : Type := (Exn + A)%type.

Definition rbind {A B} (r : result A) (k : A -> result B) : result B :=
  match r with
  | inl e => inl e
  | inr a => k a
  end.

(** Own property of a parsed object. *)
Fixpoint lookup (k : string) (o : list (string * value)) : option value :=
  match o with
  | [] => None
  | (k', v) :: o' => if String.eqb k k' then Some v else lookup k o'
  end.

Definition has_key (k : string) (o : list (string * value)) : bool :=
  match lookup k o with Some _ => true | None => false end.

Definition is_nullish (v : value) : bool :=
  match v with VUndefined | VNull => true | _ => false end.

(** ToBoolean. *)
Definition truthy (v : value) : bool :=
  match v with
  | VUndefined | VNull => false
  | VBool b => b
  | VNum n => negb (Z.eqb n 0)
  | VStr s => truthy_str s
  | VArr _ | VObj _ => true
  end.

(** [v.k], for the property names the program reads (none of them is a
    member of [Object.prototype]).  An array and a string have a [length];
    the length of a string is only ever tested against zero. *)
Definition get (v : value) (k : string) : result value :=
  match v with
  | VUndefined | VNull => inl TypeError
  | VObj o => inr (match lookup k o with Some x => x | None => VUndefined end)
  | VArr l => inr (if String.eqb k "length" then VNum (Z.of_nat (List.length l)) else VUndefined)
  | VStr s => inr (if String.eqb k "length" then VNum (Z.of_nat (String.length s)) else VUndefined)
  | VBool _ | VNum _ => inr VUndefined
  end.

(** ToString, as a template literal applies it.  An array is joined with
    commas, a null or undefined element giving the empty string; a plain
    object gives [[object Object]] unless an own [toString] property (never
    callable in parsed JSON) hides the inherited method. *)
Fixpoint ToString (v : value) : result string :=
  match v with
  | VUndefined => inr "undefined"
  | VNull => inr "null"
  | VBool true => inr "true"
  | VBool false => inr "false"
  | VNum n => inr (Number_toString n)
  | VStr s => inr s
  | VArr l =>
      rbind
        ((fix elems (l : list value) : result (list string) :=
            match l with
            | [] => inr []
            | x :: l' =>
                rbind (if is_nullish x then inr EmptyString else ToString x) (fun s =>
                rbind (elems l') (fun r => inr (s :: r)))
            end) l)
        (fun ss => inr (join "," ss))
  | VObj o => if has_key "toString" o then inl TypeError else inr "[object Object]"
  end.

(** [a.map(f)] for a callback that produces text: only an array has the
    method; the callback runs on the elements from left to right. *)
Fixpoint map_elems (f : value -> result string) (l : list value) : result (list string) :=
  match l with
  | [] => inr []
  | x :: l' => rbind (f x) (fun s => rbind (map_elems f l') (fun r => inr (s :: r)))
  end.

Definition array_map (v : value) (f : value -> result string) : result (list string) :=
  match v with
  | VArr l => map_elems f l
  | _ => inl TypeError
  end.

(** [a.join(sep)]: only an array has the method; a null or undefined
    element gives the empty string. *)
Definition array_join (v : value) (sep : string) : result string :=
  match v with
  | VArr l =>
      rbind (map_elems (fun x => if is_nullish x then inr EmptyString else ToString x) l)
            (fun ss => inr (join sep ss))
  | _ => inl TypeError
  end.

(** [a || b] and [a ?? b]. *)
Definition js_or (a b : value) : value := if truthy a then a else b.
Definition js_coalesce (a b : value) : value := if is_nullish a then b else a.

(** [a === 0]. *)
Definition is_zero (v : value) : bool :=
  match v with VNum n => Z.eqb n 0 | _ => false end.

(** ** Buffers, archives, forms and requests *)

Inductive Encoding : Type := utf8 | base64.

(** A byte buffer, kept as the expression that produced it:
    [Buffer.from(s, enc)], or [zip.toBuffer()] for an archive with the
    given entries. *)
Inductive Buffer : Type :=
| Buffer_from (s : string) (enc : Encoding)
| Zip_buffer (entries : list (string * Buffer)).

(** Modelled from the spec: the archive object of the third-party adm-zip
    package ([new AdmZip()], [addFile], [toBuffer]), which is not under
    src/.  An entry is stored at its given name unchanged; adding a name
    that is already present replaces the content of that entry in place
    (last write wins), so that the entry names of an archive are distinct.
    The order of the list carries no meaning: the specification gives the
    entries no order. *)
Module AdmZip.

Definition t : Type := list (string * Buffer).

Definition empty : t := [].

Fixpoint addFile (entryName : string) (content : Buffer) (zip : t) : t :=
  match zip with
  | [] => [(entryName, content)]
  | (n, c) :: zip' =>
      if String.eqb n entryName
      then (n, content) :: zip'
      else (n, c) :: addFile entryName content zip'
  end.

Definition toBuffer (zip : t) : Buffer := Zip_buffer zip.

Definition entryNames (zip : t) : list string := map fst zip.

Fixpoint getEntry (entryName : string) (zip : t) : option Buffer :=
  match zip with
  | [] => None
  | (n, c) :: zip' => if String.eqb n entryName then Some c else getEntry entryName zip'
  end.

End AdmZip.

Inductive BlobPart : Type :=
| PartString (s : string)
| PartBytes (b : Buffer).

Record Blob : Type := { blob_parts : list BlobPart; blob_type : string }.

Inductive FormValue : Type :=
| FormString (s : string)
| FormFile (b : Blob) (filename : string).

(** A [FormData]: its entries, in the order of the [append] calls. *)
Definition FormData : Type := list (string * FormValue).

Definition FormData_append (name : string) (v : FormValue) (f : FormData) : FormData :=
  (f ++ [(name, v)])%list.

(** The [body] argument of [apiRequest]. *)
Inductive ApiBody : Type :=
| RecordBody (o : list (string * value))
| FormBody (f : FormData).

(** The body handed to [fetch]: [JsonText o] stands for the string
    [JSON.stringify(o)]. *)
Inductive FetchBody : Type :=
| JsonText (o : list (string * value))
| Multipart (f : FormData).

Record Request : Type := {
  req_url : string;
  req_method : string;
  req_headers : list (string * string);
  req_body : option FetchBody
}.

(** What [fetch(...)] followed by [res.json()] gives. *)
Inductive Response : Type :=
| Unreachable            (* [fetch] rejects *)
| NotJson                (* [res.json()] rejects *)
| Json (v : value).

(** The effects of a call, in the order they happen. *)
Inductive Event : Type :=
| EvZipNew
| EvZipAddFile (entryName : string) (content : Buffer)
| EvZipToBuffer
| EvFetch (req : Request).

Definition is_fetch (e : Event) : bool :=
  match e with EvFetch _ => true | _ => false end.

(** The number of network calls in a trace. *)
Definition network_calls (tr : list Event) : nat :=
  List.length (filter is_fetch tr).

(** ** The monad of the handlers *)

Definition M (A : Type) : Type := list Event -> list Event * result A.

Definition ret {A} (a : A) : M A := fun tr => (tr, inr a).
Definition throw {A} (e : Exn) : M A := fun tr => (tr, inl e).
Definition lift {A} (r : result A) : M A := fun tr => (tr, r).
Definition emit (e : Event) : M unit := fun tr => ((tr ++ [e])%list, inr tt).

Definition bind {A B} (m : M A) (k : A -> M B) : M B :=
  fun tr =>
    match m tr with
    | (tr', inl e) => (tr', inl e)
    | (tr', inr a) => k a tr'
    end.

Declare Scope js_scope.
Delimit Scope js_scope with js.
Notation "x <- m ;; k" := (bind m (fun x => k))
  (at level 61, m at next level, right associativity) : js_scope.
Notation "m ;;; k" := (bind m (fun _ => k))
  (at level 61, right associativity) : js_scope.
Local Open Scope js_scope.

(** The trace and the outcome of a call started on the empty trace. *)
Definition run {A} (m : M A) : list Event * result A := m [].

(** The AdmZip calls, each leaving its mark in the trace. *)
Definition zip_new : M AdmZip.t :=
  emit EvZipNew ;;; ret AdmZip.empty.

Definition zip_addFile (zip : AdmZip.t) (entryName : string) (content : Buffer) : M AdmZip.t :=
  emit (EvZipAddFile entryName content) ;;; ret (AdmZip.addFile entryName content zip).

Definition zip_toBuffer (zip : AdmZip.t) : M Buffer :=
  emit EvZipToBuffer ;;; ret (AdmZip.toBuffer zip).

(** [{ content: [{ type: "text", text }] }]. *)
Record ContentItem : Type := { item_type : string; item_text : string }.
Record ToolResult : Type := { result_content : list ContentItem }.

Definition textResult (text : string) : ToolResult :=
  {| result_content := [ {| item_type := "text"; item_text := text |} ] |}.

(** ** The host: environment, network and locale

    What the program takes from its runtime: the two environment
    variables, the backend behind [fetch], and the locale-dependent
    renderings. *)
Record Host : Type := {
  PAGE4U_API_KEY : option string;
  PAGE4U_API_URL : option string;
  (* [await fetch(url, init)] then [await res.json()] *)
  fetch : Request -> Response;
  (* [new Date(v).toLocaleDateString()] *)
  Date_toLocaleDateString : value -> result string;
  (* [v.toLocaleString()] for a v that is neither undefined nor null *)
  toLocaleString : value -> result string;
  (* [JSON.stringify(v, null, 2)] for a [v] other than undefined, at its
     declared type; for undefined JavaScript gives undefined, not a string,
     and the text of [get_page] then lies outside the embedding *)
  JSON_stringify_pretty : value -> string
}.

(** ** Parameters of the tools, as their schemas type them *)

Inductive PageStatus : Type := draft | published | archived.

Definition PageStatus_string (s : PageStatus) : string :=
  match s with draft => "draft" | published => "published" | archived => "archived" end.

Inductive Locale : Type := he | en.

Definition Locale_string (l : Locale) : string :=
  match l with he => "he" | en => "en" end.

Record Asset : Type := { filename : string; content : string }.

Record ListPagesArgs : Type := { lp_status : option PageStatus }.

Record DeployArgs : Type := {
  dp_html : string;
  dp_assets : option (list Asset);
  dp_slug : option string;
  dp_locale : option Locale;
  dp_whatsapp : option string
}.

(** The optional fields of [update_page], [None] for [undefined]. *)
Record UpdateFields : Type := {
  businessName : option string;
  headline : option string;
  description : option string;
  phone : option string;
  email : option string;
  whatsapp : option string;
  primaryColor : option string;
  secondaryColor : option string;
  googleAnalyticsId : option string;
  facebookPixelId : option string
}.

Record UpdateArgs : Type := { up_slug : string; up_fields : UpdateFields }.

Record LeadsArgs : Type := {
  gl_slug : string;
  gl_status : option string;
  gl_limit : option Z
}.

Record AnalyticsArgs : Type := {
  ga_slug : string;
  ga_from : option string;
  ga_to : option string
}.

(** [Object.entries(fields)], in the order of the schema. *)
Definition Object_entries (f : UpdateFields) : list (string * option string) :=
  [ ("businessName", businessName f);
    ("headline", headline f);
    ("description", description f);
    ("phone", phone f);
    ("email", email f);
    ("whatsapp", whatsapp f);
    ("primaryColor", primaryColor f);
    ("secondaryColor", secondaryColor f);
    ("googleAnalyticsId", googleAnalyticsId f);
    ("facebookPixelId", facebookPixelId f) ].

(** [body[k] = v]. *)
Fixpoint obj_set (k : string) (v : value) (o : list (string * value)) : list (string * value) :=
  match o with
  | [] => [(k, v)]
  | (k', v') :: o' =>
      if String.eqb k' k then (k', v) :: o' else (k', v') :: obj_set k v o'
  end.

(** The loop of [update_page] that keeps the defined fields. *)
Definition defined_fields (entries : list (string * option string)) : list (string * value) :=
  fold_left
    (fun body kv =>
       match snd kv with
       | Some v => obj_set (fst kv) (VStr v) body
       | None => body
       end)
    entries [].

(** [URLSearchParams]: [set] replaces the first pair of that name and
    drops the others, or appends; [toString] serializes the pairs. *)
Definition URLSearchParams : Type := list (string * string).

Fixpoint params_set (name v : string) (p : URLSearchParams) : URLSearchParams :=
  match p with
  | [] => [(name, v)]
  | (n, x) :: p' =>
      if String.eqb n name
      then (n, v) :: filter (fun q => negb (String.eqb (fst q) name)) p'
      else (n, x) :: params_set name v p'
  end.

Definition params_toString (p : URLSearchParams) : string :=
  join "&" (map (fun q => urlencoded (fst q) ++ "=" ++ urlencoded (snd q)) p).

(** [if (v) params.set(name, v)] for an optional string. *)
Definition set_if_truthy (name : string) (v : option string) (p : URLSearchParams) : URLSearchParams :=
  match v with
  | Some s => if truthy_str s then params_set name s p else p
  | None => p
  end.

(** [if (v) formData.append(name, v)] for an optional string. *)
Definition append_if_truthy (name : string) (v : option string) (f : FormData) : FormData :=
  match v with
  | Some s => if truthy_str s then FormData_append name (FormString s) f else f
  | None => f
  end.

(** [parts.push(s)]. *)
Definition push (parts : list string) (s : string) : list string :=
  (parts ++ [s])%list.

(** [qs ? `?${qs}` : empty]. *)
Definition query_suffix (qs : string) : string :=
  if truthy_str qs then "?" ++ qs else EmptyString.

(** A validated call of one of the seven tools. *)
Inductive Operation : Type :=
| Op_list_pages (args : ListPagesArgs)
| Op_get_page (slug : string)
| Op_deploy_page (args : DeployArgs)
| Op_update_page (args : UpdateArgs)
| Op_delete_page (slug : string)
| Op_get_leads (args : LeadsArgs)
| Op_get_analytics (args : AnalyticsArgs).

(** A call as it arrives: the enumerated parameters are still strings and
    the limit is any integer. *)
Inductive ToolCall : Type :=
| Call_list_pages (status : option string)
| Call_get_page (slug : string)
| Call_deploy_page (html : string) (assets : option (list Asset))
                   (slug locale whatsapp : option string)
| Call_update_page (args : UpdateArgs)
| Call_delete_page (slug : string)
| Call_get_leads (args : LeadsArgs)
| Call_get_analytics (args : AnalyticsArgs).

(** [z.enum(["draft", "published", "archived"])]. *)
Definition parse_PageStatus (s : string) : option PageStatus :=
  if String.eqb s "draft" then Some draft
  else if String.eqb s "published" then Some published
  else if String.eqb s "archived" then Some archived
  else None.

(** [z.enum(["he", "en"])]. *)
Definition parse_Locale (s : string) : option Locale :=
  if String.eqb s "he" then Some he
  else if String.eqb s "en" then Some en
  else None.

(** [.optional()] over an enum. *)
Definition optional_enum {A} (parse : string -> option A) (field : string)
           (v : option string) : result (option A) :=
  match v with
  | None => inr None
  | Some s =>
      match parse s with
      | Some a => inr (Some a)
      | None => inl (ValidationError field)
      end
  end.

(** Modelled from the spec: the validation of a call against the
    [inputSchema] of its tool, which the host runtime performs before the
    handler runs and which is not under src/: on a validation failure the
    call ends with a ValidationError naming the offending field, and no
    network call occurs.  The constraints that the types of the embedding
    do not already carry are the two enums and the range of [limit]
    ([z.number().int().min(1).max(500)]). *)
Definition validate (c : ToolCall) : result Operation :=
  match c with
  | Call_list_pages status =>
      rbind (optional_enum parse_PageStatus "status" status) (fun status =>
      inr (Op_list_pages {| lp_status := status |}))
  | Call_get_page slug => inr (Op_get_page slug)
  | Call_deploy_page html assets slug locale whatsapp =>
      rbind (optional_enum parse_Locale "locale" locale) (fun locale =>
      inr (Op_deploy_page {| dp_html := html; dp_assets := assets; dp_slug := slug;
                             dp_locale := locale; dp_whatsapp := whatsapp |}))
  | Call_update_page args => inr (Op_update_page args)
  | Call_delete_page slug => inr (Op_delete_page slug)
  | Call_get_leads args =>
      match gl_limit args with
      | Some limit =>
          if Z.leb 1 limit && Z.leb limit 500 then inr (Op_get_leads args)
          else inl (ValidationError "limit")
      | None => inr (Op_get_leads args)
      end
  | Call_get_analytics args => inr (Op_get_analytics args)
  end.

Definition missing_key_message : string :=
  "PAGE4U_API_KEY environment variable is not set. Get your key at https://page4u.ai/dashboard/settings".

Section Program.

Variable host : Host.

Definition API_KEY : string :=
  match PAGE4U_API_KEY host with Some k => k | None => EmptyString end.

Definition BASE_URL : string :=
  strip_trailing_slashes
    (match PAGE4U_API_URL host with Some u => u | None => "https://page4u.ai" end).

(** [await fetch(url, { method, headers, body })] and [await res.json()]. *)
Definition do_fetch (req : Request) : M value :=
  emit (EvFetch req) ;;;
  match fetch host req with
  | Unreachable => throw NetworkError
  | NotJson => throw SyntaxError
  | Json v => ret v
  end.

Definition base_headers : list (string * string) :=
  [("Authorization", "Bearer " ++ API_KEY); ("X-Page4U-Client", "mcp")].

(** Lines 41 to 53: the URL, the headers and the encoded body. *)
Definition build_request (method path : string) (body : option ApiBody) : Request :=
  let url := BASE_URL ++ "/api/v1" ++ path in
  let headers := base_headers in
  let '(headers, fetchBody) :=
    match body with
    | Some (FormBody f) => (headers, Some (Multipart f))
    | Some (RecordBody o) =>
        ((headers ++ [("Content-Type", "application/json")])%list, Some (JsonText o))
    | None => (headers, None)
    end in
  {| req_url := url; req_method := method; req_headers := headers; req_body := fetchBody |}.

(** Lines 58 to 62: the test of [json.success]. *)
Definition check_envelope (json : value) : result value :=
  rbind (get json "success") (fun success =>
  if negb (truthy success) then
    rbind (get json "error") (fun error =>
    rbind (get error "code") (fun code =>
    rbind (ToString code) (fun code_s =>
    rbind (get json "error") (fun error' =>
    rbind (get error' "message") (fun message =>
    rbind (ToString message) (fun message_s =>
    inl (JsError (code_s ++ ": " ++ message_s))))))))
  else inr json).

Definition apiRequest (method path : string) (body : option ApiBody) : M value :=
  if negb (truthy_str API_KEY) then throw (JsError missing_key_message)
  else
    json <- do_fetch (build_request method path body) ;;
    lift (check_envelope json).

(** *** list_pages *)

Definition list_pages_line (p : value) : result string :=
  rbind (get p "slug") (fun slug =>
  rbind (ToString slug) (fun slug_s =>
  rbind (get p "businessName") (fun name =>
  rbind (ToString (js_or name (VStr "(no name)"))) (fun name_s =>
  rbind (get p "status") (fun status =>
  rbind (ToString status) (fun status_s =>
  rbind (get p "createdAt") (fun createdAt =>
  rbind (Date_toLocaleDateString host createdAt) (fun date_s =>
  inr ("- " ++ slug_s ++ " | " ++ name_s ++ " | " ++ status_s ++ " | " ++ date_s))))))))).

Definition list_pages (args : ListPagesArgs) : M ToolResult :=
  let path :=
    match lp_status args with
    | Some status =>
        if truthy_str (PageStatus_string status)
        then "/pages?status=" ++ PageStatus_string status
        else "/pages"
    | None => "/pages"
    end in
  json <- apiRequest "GET" path None ;;
  data <- lift (get json "data") ;;
  total <- lift (get json "total") ;;
  len <- lift (get data "length") ;;
  if is_zero len then ret (textResult "No pages found.")
  else
    lines <- lift (array_map data list_pages_line) ;;
    len' <- lift (get data "length") ;;
    count_s <- lift (ToString (js_coalesce total len')) ;;
    ret (textResult (count_s ++ " page(s):" ++ nl ++ nl ++ join nl lines)).

(** *** get_page *)

Definition get_page (slug : string) : M ToolResult :=
  json <- apiRequest "GET" ("/pages/" ++ encodeURIComponent slug) None ;;
  data <- lift (get json "data") ;;
  ret (textResult (JSON_stringify_pretty host data)).

(** *** deploy_page *)

(** [for (const asset of assets) zip.addFile(asset.filename, ...)]. *)
Fixpoint add_assets (zip : AdmZip.t) (assets : list Asset) : M AdmZip.t :=
  match assets with
  | [] => ret zip
  | asset :: rest =>
      zip' <- zip_addFile zip (filename asset) (Buffer_from (content asset) base64) ;;
      add_assets zip' rest
  end.

(** The form of lines 165 to 190. *)
Definition deploy_form (args : DeployArgs) : M FormData :=
  let formData : FormData := [] in
  formData <-
    match dp_assets args with
    | Some (a :: l) =>
        let assets := a :: l in
        zip <- zip_new ;;
        zip <- zip_addFile zip "index.html" (Buffer_from (dp_html args) utf8) ;;
        zip <- add_assets zip assets ;;
        zipBuffer <- zip_toBuffer zip ;;
        ret (FormData_append "file"
               (FormFile {| blob_parts := [PartBytes zipBuffer];
                            blob_type := "application/zip" |} "site.zip")
               formData)
    | _ =>
        ret (FormData_append "file"
               (FormFile {| blob_parts := [PartString (dp_html args)];
                            blob_type := "text/html" |} "index.html")
               formData)
    end ;;
  let formData := append_if_truthy "slug" (dp_slug args) formData in
  let formData := append_if_truthy "locale" (option_map Locale_string (dp_locale args)) formData in
  let formData := append_if_truthy "whatsapp" (dp_whatsapp args) formData in
  ret formData.

(** The result text of lines 199 to 205. *)
Definition deploy_text (assets : option (list Asset)) (data : value) : result string :=
  rbind (get data "url") (fun url =>
  rbind (ToString url) (fun url_s =>
  rbind (get data "slug") (fun slug =>
  rbind (ToString slug) (fun slug_s =>
  let result := "Page deployed!" ++ nl ++ nl ++ "URL: " ++ url_s ++ nl ++ "Slug: " ++ slug_s in
  rbind (get data "businessName") (fun name =>
  rbind (if truthy name
         then rbind (ToString name) (fun name_s => inr (result ++ nl ++ "Name: " ++ name_s))
         else inr result) (fun result =>
  let result :=
    match assets with
    | Some (a :: l) =>
        result ++ nl ++ "Assets: "
               ++ Number_toString (Z.of_nat (List.length (a :: l))) ++ " file(s) included"
    | _ => result
    end in
  rbind (get data "warnings") (fun warnings =>
  rbind (if is_nullish warnings then inr VUndefined else get warnings "length") (fun wlen =>
  if truthy wlen
  then rbind (array_map warnings
                (fun w => rbind (ToString w) (fun w_s => inr ("- " ++ w_s)))) (fun lines =>
       inr (result ++ nl ++ nl ++ "Warnings:" ++ nl ++ join nl lines))
  else inr result)))))))).

Definition deploy_page (args : DeployArgs) : M ToolResult :=
  formData <- deploy_form args ;;
  json <- apiRequest "POST" "/pages" (Some (FormBody formData)) ;;
  data <- lift (get json "data") ;;
  result <- lift (deploy_text (dp_assets args) data) ;;
  ret (textResult result).

(** *** update_page *)

Definition update_page (args : UpdateArgs) : M ToolResult :=
  let body := defined_fields (Object_entries (up_fields args)) in
  match body with
  | [] => ret (textResult "No fields to update.")
  | _ =>
      json <- apiRequest "PUT" ("/pages/" ++ encodeURIComponent (up_slug args))
                         (Some (RecordBody body)) ;;
      data <- lift (get json "data") ;;
      slug <- lift (get data "slug") ;;
      slug_s <- lift (ToString slug) ;;
      updated <- lift (get data "updated") ;;
      updated_s <- lift (array_join updated ", ") ;;
      ret (textResult ("Page " ++ dq ++ slug_s ++ dq ++ " updated. Fields changed: "
                         ++ updated_s))
  end.

(** *** delete_page *)

Definition delete_page (slug : string) : M ToolResult :=
  _ <- apiRequest "DELETE" ("/pages/" ++ encodeURIComponent slug) None ;;
  ret (textResult ("Page " ++ dq ++ slug ++ dq ++ " deleted.")).

(** *** get_leads *)

(** [if (l.k) parts.push(`Label: ${l.k}`)]. *)
Definition push_if_truthy (label : string) (l : value) (k : string)
           (parts : list string) : result (list string) :=
  rbind (get l k) (fun v =>
  if truthy v
  then rbind (ToString v) (fun v_s => inr (push parts (label ++ ": " ++ v_s)))
  else inr parts).

Definition leads_line (l : value) : result string :=
  let parts : list string := [] in
  rbind (push_if_truthy "Name" l "name" parts) (fun parts =>
  rbind (push_if_truthy "Phone" l "phone" parts) (fun parts =>
  rbind (push_if_truthy "Email" l "email" parts) (fun parts =>
  rbind (push_if_truthy "Message" l "message" parts) (fun parts =>
  rbind (get l "status") (fun status =>
  rbind (ToString status) (fun status_s =>
  let parts := push parts ("Status: " ++ status_s) in
  rbind (get l "createdAt") (fun createdAt =>
  rbind (Date_toLocaleDateString host createdAt) (fun date_s =>
  let parts := push parts ("Date: " ++ date_s) in
  inr (join " | " parts))))))))).

Definition leads_query (args : LeadsArgs) : string :=
  let params : URLSearchParams := [] in
  let params := set_if_truthy "status" (gl_status args) params in
  let params :=
    match gl_limit args with
    | Some limit =>
        if negb (Z.eqb limit 0) then params_set "limit" (Number_toString limit) params
        else params
    | None => params
    end in
  params_toString params.

Definition get_leads (args : LeadsArgs) : M ToolResult :=
  let slug := gl_slug args in
  let qs := leads_query args in
  json <- apiRequest "GET"
            ("/pages/" ++ encodeURIComponent slug ++ "/leads" ++ query_suffix qs) None ;;
  data <- lift (get json "data") ;;
  total <- lift (get json "total") ;;
  len <- lift (get data "length") ;;
  if is_zero len
  then ret (textResult ("No leads found for " ++ dq ++ slug ++ dq ++ "."))
  else
    lines <- lift (array_map data leads_line) ;;
    len' <- lift (get data "length") ;;
    count_s <- lift (ToString (js_coalesce total len')) ;;
    ret (textResult (count_s ++ " lead(s) for " ++ dq ++ slug ++ dq ++ ":"
                       ++ nl ++ nl ++ join nl lines)).

(** *** get_analytics *)

(** [data.k.toLocaleString()]. *)
Definition counter (data : value) (k : string) : result string :=
  rbind (get data k) (fun v =>
  if is_nullish v then inl TypeError else toLocaleString host v).

Definition analytics_text (slug : string) (data : value) : result string :=
  rbind (get data "period") (fun period =>
  rbind (match period with
         | VStr s => inr s
         | _ =>
             rbind (get period "from") (fun from =>
             rbind (ToString from) (fun from_s =>
             rbind (get period "to") (fun to =>
             rbind (ToString to) (fun to_s =>
             inr (from_s ++ " to " ++ to_s)))))
         end) (fun period_s =>
  rbind (counter data "totalEvents") (fun totalEvents =>
  rbind (counter data "page_view") (fun page_view =>
  rbind (counter data "button_click") (fun button_click =>
  rbind (counter data "whatsapp_click") (fun whatsapp_click =>
  rbind (counter data "phone_click") (fun phone_click =>
  rbind (counter data "email_click") (fun email_click =>
  rbind (counter data "form_submit") (fun form_submit =>
  inr (join nl
         [ "Analytics for " ++ dq ++ slug ++ dq ++ " (" ++ period_s ++ "):";
           EmptyString;
           "Total Events:     " ++ totalEvents;
           "Page Views:       " ++ page_view;
           "Button Clicks:    " ++ button_click;
           "WhatsApp Clicks:  " ++ whatsapp_click;
           "Phone Clicks:     " ++ phone_click;
           "Email Clicks:     " ++ email_click;
           "Form Submits:     " ++ form_submit ])))))))))).

Definition get_analytics (args : AnalyticsArgs) : M ToolResult :=
  let slug := ga_slug args in
  let params : URLSearchParams := [] in
  let params := set_if_truthy "from" (ga_from args) params in
  let params := set_if_truthy "to" (ga_to args) params in
  let qs := params_toString params in
  json <- apiRequest "GET"
            ("/pages/" ++ encodeURIComponent slug ++ "/analytics" ++ query_suffix qs) None ;;
  data <- lift (get json "data") ;;
  text <- lift (analytics_text slug data) ;;
  ret (textResult text).

(** *** The registry *)

Definition handler (op : Operation) : M ToolResult :=
  match op with
  | Op_list_pages args => list_pages args
  | Op_get_page slug => get_page slug
  | Op_deploy_page args => deploy_page args
  | Op_update_page args => update_page args
  | Op_delete_page slug => delete_page slug
  | Op_get_leads args => get_leads args
  | Op_get_analytics args => get_analytics args
  end.

Definition call_tool (c : ToolCall) : M ToolResult :=
  op <- lift (validate c) ;;
  handler op.

End Program.

(** ** Words of the specification *)

(** No field of [update_page] is provided. *)
Definition no_fields : UpdateFields :=
  {| businessName := None; headline := None; description := None; phone := None;
     email := None; whatsapp := None; primaryColor := None; secondaryColor := None;
     googleAnalyticsId := None; facebookPixelId := None |}.

(** The entries that carry a value, in their order. *)
Definition kept (entries : list (string * option string)) : list (string * value) :=
  flat_map (fun kv => match snd kv with
                      | Some v => [(fst kv, VStr v)]
                      | None => []
                      end) entries.

(** The fields a caller provided, each with its value, in schema order. *)
Definition provided (f : UpdateFields) : list (string * value) :=
  kept (Object_entries f).

(** The archive of [html] and [assets]: the primary document first, then
    each asset under its file name. *)
Definition asset_entry (a : Asset) : string * Buffer :=
  (filename a, Buffer_from (content a) base64).

(** One write on the archive object. *)
Definition write_entry (zip : AdmZip.t) (e : string * Buffer) : AdmZip.t :=
  AdmZip.addFile (fst e) (snd e) zip.

Definition bundle (html : string) (assets : list Asset) : AdmZip.t :=
  fold_left write_entry (map asset_entry assets)
            (AdmZip.addFile "index.html" (Buffer_from html utf8) AdmZip.empty).

(** The calls on the archive object that bundling consists of. *)
Definition bundler_events (html : string) (assets : list Asset) : list Event :=
  (EvZipNew :: EvZipAddFile "index.html" (Buffer_from html utf8)
     :: map (fun a => EvZipAddFile (fst (asset_entry a)) (snd (asset_entry a))) assets
     ++ [EvZipToBuffer])%list.

(** The content last written under a name by a sequence of writes. *)
Definition last_write (n : string) (writes : list (string * Buffer)) : option Buffer :=
  fold_left (fun acc e => if String.eqb (fst e) n then Some (snd e) else acc) writes None.

(** The two shapes of the [file] part. *)
Definition html_file (html : string) : FormValue :=
  FormFile {| blob_parts := [PartString html]; blob_type := "text/html" |} "index.html".

Definition zip_file (zip : AdmZip.t) : FormValue :=
  FormFile {| blob_parts := [PartBytes (AdmZip.toBuffer zip)];
              blob_type := "application/zip" |} "site.zip".

(** The optional text parts that follow the [file] part. *)
Definition optional_fields (args : DeployArgs) (f : FormData) : FormData :=
  append_if_truthy "whatsapp" (dp_whatsapp args)
    (append_if_truthy "locale" (option_map Locale_string (dp_locale args))
       (append_if_truthy "slug" (dp_slug args) f)).

(** The operation reaches the transport: every operation does, except an
    [update_page] without any provided field. *)
Definition reaches_transport (op : Operation) : bool :=
  match op with
  | Op_update_page args =>
      match provided (up_fields args) with [] => false | _ => true end
  | _ => true
  end.


Definition Failure_arm (body : value) : bool :=
  match body with
  | VObj o =>
      match lookup "success" o, lookup "error" o with
      | Some (VBool false), Some (VObj e) =>
          match lookup "code" e, lookup "message" e with
          | Some (VStr _), Some (VStr _) => true
          | _, _ => false
          end
      | _, _ => false
      end
  | _ => false
  end.

(** The [success] property of a body is truthy. *)
Definition success_truthy (body : value) : bool :=
  match body with
  | VObj o => match lookup "success" o with Some s => truthy s | None => false end
  | _ => false
  end.

(** A Failure envelope with the given code and message. *)
Definition Failure (code message : string) (body : value) : Prop :=
  exists o e,
    body = VObj o /\
    lookup "success" o = Some (VBool false) /\
    lookup "error" o = Some (VObj e) /\
    lookup "code" e = Some (VStr code) /\
    lookup "message" e = Some (VStr message).

(** A property that is absent from a record or holds a string. *)
Definition optional_string (o : list (string * value)) (k : string) : Prop :=
  lookup k o = None \/ exists s, lookup k o = Some (VStr s).

(** A lead record: optional name, phone, email and message, a status and
    a creation date that the host renders. *)
Definition Lead (host : Host) (l : value) : Prop :=
  exists o,
    l = VObj o /\
    optional_string o "name" /\ optional_string o "phone" /\
    optional_string o "email" /\ optional_string o "message" /\
    (exists s, lookup "status" o = Some (VStr s)) /\
    (exists c d, lookup "createdAt" o = Some (VStr c)
                 /\ Date_toLocaleDateString host (VStr c) = inr d).

(** The request of an [update_page] call that provides some field. *)
Definition update_request (host : Host) (args : UpdateArgs) : Request :=
  {| req_url := BASE_URL host ++ "/api/v1" ++ "/pages/" ++ encodeURIComponent (up_slug args);
     req_method := "PUT";
     req_headers := [("Authorization", "Bearer " ++ API_KEY host);
                     ("X-Page4U-Client", "mcp");
                     ("Content-Type", "application/json")];
     req_body := Some (JsonText (provided (up_fields args))) |}.

(** The form a [deploy_page] call is to send, and the calls on the archive
    object it is to make: none without assets. *)
Definition deploy_payload (args : DeployArgs) : FormData :=
  match dp_assets args with
  | Some (a :: l) =>
      optional_fields args [("file", zip_file (bundle (dp_html args) (a :: l)))]
  | _ => optional_fields args [("file", html_file (dp_html args))]
  end.

Definition deploy_bundling (args : DeployArgs) : list Event :=
  match dp_assets args with
  | Some (a :: l) => bundler_events (dp_html args) (a :: l)
  | _ => []
  end.

(** The request of a [deploy_page] call. *)
Definition deploy_request (host : Host) (args : DeployArgs) : Request :=
  build_request host "POST" "/pages" (Some (FormBody (deploy_payload args))).

(** The calls on the archive object that an operation makes before it
    reaches the transport. *)
Definition bundling_of (op : Operation) : list Event :=
  match op with
  | Op_deploy_page args => deploy_bundling args
  | _ => []
  end.

(** ** Further words, for the properties beyond the claims *)

(** The request an operation sends. *)
Definition request_of (host : Host) (op : Operation) : Request :=
  match op with
  | Op_list_pages args =>
      build_request host "GET"
        (match lp_status args with
         | Some status => "/pages?status=" ++ PageStatus_string status
         | None => "/pages"
         end) None
  | Op_get_page slug =>
      build_request host "GET" ("/pages/" ++ encodeURIComponent slug) None
  | Op_deploy_page args => deploy_request host args
  | Op_update_page args => update_request host args
  | Op_delete_page slug =>
      build_request host "DELETE" ("/pages/" ++ encodeURIComponent slug) None
  | Op_get_leads args =>
      build_request host "GET"
        ("/pages/" ++ encodeURIComponent (gl_slug args) ++ "/leads"
           ++ query_suffix (leads_query args)) None
  | Op_get_analytics args =>
      build_request host "GET"
        ("/pages/" ++ encodeURIComponent (ga_slug args) ++ "/analytics"
           ++ query_suffix
                (params_toString
                   (set_if_truthy "to" (ga_to args)
                      (set_if_truthy "from" (ga_from args) [])))) None
  end.

(** The HTTP method of each operation. *)
Definition method_of (op : Operation) : string :=
  match op with
  | Op_deploy_page _ => "POST"
  | Op_update_page _ => "PUT"
  | Op_delete_page _ => "DELETE"
  | _ => "GET"
  end.

(** The last character of a string is a slash. *)
Fixpoint ends_with_slash (s : string) : bool :=
  match s with
  | EmptyString => false
  | String c EmptyString => Ascii.eqb c "/"
  | String _ rest => ends_with_slash rest
  end.

(** A run of [n] slashes. *)
Fixpoint slashes (n : nat) : string :=
  match n with
  | O => EmptyString
  | S n' => String "/" (slashes n')
  end.

(** The characters [encodeURIComponent] can produce. *)
Definition uri_safe (c : ascii) : bool :=
  is_alnum c || mem_ascii c "-_.!~*'()%".

(** The characters the form-urlencoded serializer can produce. *)
Definition query_safe (c : ascii) : bool :=
  is_alnum c || mem_ascii c "*-._+%".

Definition hex_value (c : ascii) : nat :=
  let n := nat_of_ascii c in
  if Nat.leb 65 n then n - 55 else n - 48.

(** The inverse of [encodeURIComponent] on its image. *)
Fixpoint percent_decode (s : string) : string :=
  match s with
  | EmptyString => EmptyString
  | String c rest =>
      if Ascii.eqb c "%" then
        match rest with
        | String h (String l rest') =>
            String (ascii_of_nat (hex_value h * 16 + hex_value l)) (percent_decode rest')
        | _ => String c (percent_decode rest)
        end
      else String c (percent_decode rest)
  end.

(** [if (o.k) parts.push(`Label: ${o.k}`)] on a record. *)
Definition optional_part (label : string) (o : list (string * value)) (k : string)
  : list string :=
  match lookup k o with
  | Some (VStr s) => if truthy_str s then [label ++ ": " ++ s] else []
  | _ => []
  end.

(** The names of the counters of an analytics snapshot. *)
Definition counters : list string :=
  ["totalEvents"; "page_view"; "button_click"; "whatsapp_click";
   "phone_click"; "email_click"; "form_submit"].

(** The operation reads the [data] of the answer. *)
Definition reads_data (op : Operation) : bool :=
  match op with
  | Op_delete_page _ | Op_get_page _ => false
  | _ => true
  end.

(** A page record of [list_pages]: a slug, an optional business name, a
    status and a creation date that the host renders. *)
Definition PageRecord (host : Host) (p : value) : Prop :=
  exists o,
    p = VObj o /\
    (exists s, lookup "slug" o = Some (VStr s)) /\
    optional_string o "businessName" /\
    (exists s, lookup "status" o = Some (VStr s)) /\
    (exists c d, lookup "createdAt" o = Some (VStr c)
                 /\ Date_toLocaleDateString host (VStr c) = inr d).

(** The string under a key, or the given default. *)
Definition string_at (o : list (string * value)) (k : string) (default : string) : string :=
  match lookup k o with
  | Some (VStr s) => s
  | _ => default
  end.

(** The optional lines of the text of [deploy_page]. *)
Definition name_line (d : list (string * value)) : string :=
  match lookup "businessName" d with
  | Some (VStr n) => if truthy_str n then nl ++ "Name: " ++ n else EmptyString
  | _ => EmptyString
  end.

Definition assets_line (assets : option (list Asset)) : string :=
  match assets with
  | Some (a :: l) =>
      nl ++ "Assets: " ++ Number_toString (Z.of_nat (List.length (a :: l)))
         ++ " file(s) included"
  | _ => EmptyString
  end.

Definition warnings_block (warnings : option (list string)) : string :=
  match warnings with
  | Some (w :: ws) =>
      nl ++ nl ++ "Warnings:" ++ nl ++ join nl (map (fun w => "- " ++ w) (w :: ws))
  | _ => EmptyString
  end.

(** The period of an analytics snapshot renders to [p]: it is the label
    [p], or a range whose bounds give [p]. *)
Definition Period (d : list (string * value)) (p : string) : Prop :=
  lookup "period" d = Some (VStr p)
  \/ exists r from to,
       lookup "period" d = Some (VObj r) /\
       lookup "from" r = Some (VStr from) /\
       lookup "to" r = Some (VStr to) /\
       p = from ++ " to " ++ to.

(** The rendering of the counter [k] of a snapshot by the host. *)
Definition rendered (host : Host) (d : list (string * value)) (k : string) : string :=
  match lookup k d with
  | Some v => match toLocaleString host v with inr s => s | inl _ => EmptyString end
  | None => EmptyString
  end.

(** ** Lines and renderings *)

(** The safe integers, which JavaScript parses and prints exactly. *)
Definition safe_integer (n : Z) : Prop := (- 2 ^ 53 < n < 2 ^ 53)%Z.

Definition lf : ascii := ascii_of_nat 10.

Fixpoint has_line_feed (s : string) : bool :=
  match s with
  | EmptyString => false
  | String c rest => Ascii.eqb c lf || has_line_feed rest
  end.

(** The lines of a text: its pieces between line feeds. *)
Fixpoint lines_of (s : string) : list string :=
  match s with
  | EmptyString => [EmptyString]
  | String c rest =>
      if Ascii.eqb c lf then EmptyString :: lines_of rest
      else match lines_of rest with
           | l :: ls => String c l :: ls
           | [] => [String c EmptyString]
           end
  end.

(** [line] is the rendering of the lead [l]: the parts that are there and
    not empty, then the status and the date, joined by [ | ]. *)
Definition lead_rendering (host : Host) (l : value) (line : string) : Prop :=
  exists o status created date,
    l = VObj o /\
    lookup "status" o = Some (VStr status) /\
    lookup "createdAt" o = Some (VStr created) /\
    Date_toLocaleDateString host (VStr created) = inr date /\
    line = join " | "
             (List.app (optional_part "Name" o "name")
                (List.app (optional_part "Phone" o "phone")
                   (List.app (optional_part "Email" o "email")
                      (List.app (optional_part "Message" o "message")
                         ["Status: " ++ status; "Date: " ++ date])))).

(** [line] is the rendering of the page [p]. *)
Definition page_rendering (host : Host) (p : value) (line : string) : Prop :=
  exists o slug status created date,
    p = VObj o /\
    lookup "slug" o = Some (VStr slug) /\
    lookup "status" o = Some (VStr status) /\
    lookup "createdAt" o = Some (VStr created) /\
    Date_toLocaleDateString host (VStr created) = inr date /\
    line = "- " ++ slug ++ " | "
             ++ (if truthy_str (string_at o "businessName" EmptyString)
                 then string_at o "businessName" EmptyString
                 else "(no name)")
             ++ " | " ++ status ++ " | " ++ date.

(** A lead whose message holds a line feed, alone in a success. *)
Definition two_line_lead : value :=
  VObj [("message", VStr ("first" ++ nl ++ "second"));
        ("status", VStr "new"); ("createdAt", VStr "2025-01-02T10:00:00Z")].

Definition one_lead_success : list (string * value) :=
  [("success", VBool true); ("data", VArr [two_line_lead])].


(** ** Hosts for the examples *)

(** A host with the given key whose backend always answers [r]. *)
Definition stub_host (key : option string) (r : Response) : Host :=
  {| PAGE4U_API_KEY := key;
     PAGE4U_API_URL := None;
     fetch := fun _ => r;
     Date_toLocaleDateString := fun _ => inr "1/2/2025";
     toLocaleString := ToString;
     JSON_stringify_pretty := fun _ => "{}" |}.

Definition failure_body (code message : string) : value :=
  VObj [("success", VBool false);
        ("error", VObj [("code", VStr code); ("message", VStr message)])].

(** Sample calls and bodies for the examples. *)
Definition headline_and_phone : UpdateArgs :=
  {| up_slug := "my-bakery";
     up_fields := {| businessName := None; headline := Some EmptyString;
                     description := None; phone := Some "050-1234567";
                     email := None; whatsapp := None; primaryColor := None;
                     secondaryColor := None; googleAnalyticsId := None;
                     facebookPixelId := None |} |}.

Definition empty_success : list (string * value) :=
  [("success", VBool true); ("data", VArr [])].

Definition two_leads : list value :=
  [ VObj [("name", VStr "Dana"); ("phone", VStr "050-1234567");
          ("status", VStr "new"); ("createdAt", VStr "2025-01-02T10:00:00Z")];
    VObj [("email", VStr "avi@example.com"); ("message", VStr "Call me");
          ("status", VStr "contacted"); ("createdAt", VStr "2025-01-02T11:00:00Z")] ].

Definition two_of_five : list (string * value) :=
  [("success", VBool true); ("data", VArr two_leads); ("total", VNum 5)].

Definition my_bakery_leads : LeadsArgs :=
  {| gl_slug := "my-bakery"; gl_status := None; gl_limit := Some 2%Z |}.

Definition html_only : DeployArgs :=
  {| dp_html := "<html>...</html>"; dp_assets := None; dp_slug := None;
     dp_locale := None; dp_whatsapp := None |}.

Definition yes_body : value := VObj [("success", VStr "yes")].

(** * Properties *)

(** ** The monad and the transport *)

Lemma Failure_arm_Failure body :
  Failure_arm body = true <-> exists code message, Failure code message body.
Proof.
  split.
  - destruct body as [| | | | | |o]; cbn; try discriminate.
    destruct (lookup "success" o) as [[| |[|]| | | |]|] eqn:Hs; try discriminate.
    destruct (lookup "error" o) as [[| | | | | |e]|] eqn:He; try discriminate.
    destruct (lookup "code" e) as [[| | | |code| |]|] eqn:Hc; try discriminate.
    destruct (lookup "message" e) as [[| | | |message| |]|] eqn:Hm; try discriminate.
    intros _. exists code, message, o, e. auto.
  - intros (code & message & o & e & -> & Hs & He & Hc & Hm).
    cbn. now rewrite Hs, He, Hc, Hm.
Qed.

Lemma truthy_str_true (s : string) : s <> EmptyString -> truthy_str s = true.
Proof. destruct s; [congruence | reflexivity]. Qed.

Lemma truthy_str_false (s : string) : truthy_str s = false -> s = EmptyString.
Proof. destruct s; [reflexivity | discriminate]. Qed.

Lemma apiRequest_no_key host method path body tr :
  API_KEY host = EmptyString ->
  apiRequest host method path body tr = (tr, inl (JsError missing_key_message)).
Proof.
  intros H. unfold apiRequest. rewrite H. reflexivity.
Qed.

Lemma apiRequest_with_key host method path body tr :
  API_KEY host <> EmptyString ->
  apiRequest host method path body tr =
  ((tr ++ [EvFetch (build_request host method path body)])%list,
   match fetch host (build_request host method path body) with
   | Unreachable => inl NetworkError
   | NotJson => inl SyntaxError
   | Json v => check_envelope v
   end).
Proof.
  intros H. unfold apiRequest. rewrite (truthy_str_true _ H). cbn.
  unfold bind, do_fetch, bind, emit, lift, throw, ret.
  destruct (fetch host _); reflexivity.
Qed.

Lemma check_envelope_Failure code message body :
  Failure code message body ->
  check_envelope body = inl (JsError (code ++ ": " ++ message)).
Proof.
  intros (o & e & -> & Hs & He & Hc & Hm).
  unfold check_envelope. cbn. rewrite Hs. cbn. rewrite He. cbn.
  rewrite Hc, Hm. reflexivity.
Qed.

(** ** update_page: the fields that are sent *)

Lemma obj_set_fresh k v o :
  ~ In k (map fst o) -> obj_set k v o = (o ++ [(k, v)])%list.
Proof.
  induction o as [|[k' v'] o IH]; cbn; intros Hk; [reflexivity|].
  destruct (String.eqb_spec k' k) as [->|_].
  - exfalso. apply Hk. now left.
  - rewrite IH; [reflexivity|]. intros Hin. apply Hk. now right.
Qed.

Lemma kept_keys entries k :
  In k (map fst (kept entries)) -> In k (map fst entries).
Proof.
  induction entries as [|[k' [v|]] entries IH]; cbn; intros H.
  - exact H.
  - destruct H as [H|H]; [now left | right; now apply IH].
  - right. now apply IH.
Qed.

Lemma fold_defined entries : forall acc,
  NoDup (map fst entries) ->
  (forall k, In k (map fst entries) -> ~ In k (map fst acc)) ->
  fold_left
    (fun body kv =>
       match snd kv with
       | Some v => obj_set (fst kv) (VStr v) body
       | None => body
       end) entries acc
  = (acc ++ kept entries)%list.
Proof.
  induction entries as [|[k [v|]] entries IH]; cbn; intros acc Hnd Hfresh.
  - now rewrite app_nil_r.
  - inversion Hnd as [|? ? Hk Hnd']; subst.
    rewrite obj_set_fresh by (apply Hfresh; now left).
    rewrite IH; [now rewrite <- app_assoc | exact Hnd' |].
    intros k' Hin. rewrite map_app, in_app_iff. cbn. intros [H|[H|[]]].
    + revert H. apply Hfresh. now right.
    + subst. contradiction.
  - inversion Hnd as [|? ? Hk Hnd']; subst.
    apply IH; [exact Hnd'|]. intros k' Hin. apply Hfresh. now right.
Qed.

Lemma Object_entries_NoDup f : NoDup (map fst (Object_entries f)).
Proof.
  cbn. repeat constructor; cbn; intuition discriminate.
Qed.

Lemma defined_fields_provided f :
  defined_fields (Object_entries f) = provided f.
Proof.
  unfold defined_fields. rewrite fold_defined.
  - reflexivity.
  - apply Object_entries_NoDup.
  - intros k _ [].
Qed.

Lemma update_page_short_circuit host args tr :
  provided (up_fields args) = [] ->
  update_page host args tr = (tr, inr (textResult "No fields to update.")).
Proof.
  intros H. unfold update_page. rewrite defined_fields_provided, H. reflexivity.
Qed.

(** C3: an [update_page] call in which every optional field is undefined
    performs no network call, leaves the trace of effects as it found it,
    and returns one content item of type text whose text is
    [No fields to update.]. *)
Theorem update_page_nothing_to_update host slug tr :
  update_page host {| up_slug := slug; up_fields := no_fields |} tr
  = (tr, inr {| result_content :=
                  [ {| item_type := "text"; item_text := "No fields to update." |} ] |})
  /\ network_calls (fst (run (update_page host {| up_slug := slug; up_fields := no_fields |}))) = 0.
Proof.
  split.
  - rewrite update_page_short_circuit; reflexivity.
  - unfold run. rewrite update_page_short_circuit; reflexivity.
Qed.

(** ** deploy_page: the payload and the archive *)

Lemma add_assets_run assets : forall zip tr,
  add_assets zip assets tr
  = ((tr ++ map (fun a => EvZipAddFile (fst (asset_entry a)) (snd (asset_entry a))) assets)%list,
     inr (fold_left write_entry (map asset_entry assets) zip)).
Proof.
  induction assets as [|a assets IH]; intros zip tr; cbn.
  - now rewrite app_nil_r.
  - unfold bind, zip_addFile, bind, emit, ret. cbn. rewrite IH.
    now rewrite <- app_assoc.
Qed.

Lemma deploy_form_single args tr :
  dp_assets args = None \/ dp_assets args = Some [] ->
  deploy_form args tr
  = (tr, inr (optional_fields args [("file", html_file (dp_html args))])).
Proof.
  intros [H|H]; unfold deploy_form; rewrite H; reflexivity.
Qed.

Lemma deploy_form_archive args a l tr :
  dp_assets args = Some (a :: l) ->
  deploy_form args tr
  = ((tr ++ bundler_events (dp_html args) (a :: l))%list,
     inr (optional_fields args [("file", zip_file (bundle (dp_html args) (a :: l)))])).
Proof.
  intros H. unfold deploy_form. rewrite H.
  unfold bind at 1. unfold bind at 1. unfold zip_new at 1.
  unfold bind at 1. unfold emit at 1. unfold ret at 1.
  unfold bind at 1. unfold zip_addFile at 1. unfold bind at 1, emit at 1, ret at 1.
  unfold bind at 1. rewrite add_assets_run.
  unfold bind, zip_toBuffer, bind, emit, ret. cbn [fst snd].
  unfold bundler_events, bundle.
  f_equal. rewrite <- !app_assoc. reflexivity.
Qed.

Lemma addFile_names n k c zip :
  In n (AdmZip.entryNames (AdmZip.addFile k c zip))
  <-> n = k \/ In n (AdmZip.entryNames zip).
Proof.
  unfold AdmZip.entryNames.
  induction zip as [|[k' c'] zip IH]; cbn.
  - intuition.
  - destruct (String.eqb_spec k' k) as [->|Hne]; cbn.
    + intuition.
    + rewrite IH. intuition.
Qed.

Lemma addFile_NoDup k c zip :
  NoDup (AdmZip.entryNames zip) -> NoDup (AdmZip.entryNames (AdmZip.addFile k c zip)).
Proof.
  induction zip as [|[k' c'] zip IH]; cbn; intros Hnd.
  - repeat constructor. intros [].
  - inversion Hnd as [|? ? Hk Hnd']; subst.
    destruct (String.eqb_spec k' k) as [->|Hne]; cbn.
    + constructor; assumption.
    + constructor; [|now apply IH].
      intros Hin. apply (addFile_names k' k c zip) in Hin.
      destruct Hin as [->|Hin]; [now apply Hne | now apply Hk].
Qed.

Lemma addFile_getEntry n k c zip :
  AdmZip.getEntry n (AdmZip.addFile k c zip)
  = if String.eqb k n then Some c else AdmZip.getEntry n zip.
Proof.
  induction zip as [|[k' c'] zip IH]; cbn.
  - rewrite (String.eqb_sym k n). destruct (String.eqb n k); reflexivity.
  - destruct (String.eqb_spec k' k) as [->|Hne]; cbn.
    + destruct (String.eqb k n); reflexivity.
    + rewrite IH. destruct (String.eqb_spec k' n) as [->|Hne'].
      * destruct (String.eqb_spec k n) as [->|_]; [now elim Hne | reflexivity].
      * reflexivity.
Qed.

Lemma writes_names n writes : forall zip,
  In n (AdmZip.entryNames (fold_left write_entry writes zip))
  <-> In n (AdmZip.entryNames zip) \/ In n (map fst writes).
Proof.
  induction writes as [|e writes IH]; intros zip; cbn.
  - intuition.
  - rewrite IH. unfold write_entry. rewrite addFile_names. intuition.
Qed.

Lemma writes_NoDup writes : forall zip,
  NoDup (AdmZip.entryNames zip) ->
  NoDup (AdmZip.entryNames (fold_left write_entry writes zip)).
Proof.
  induction writes as [|e writes IH]; intros zip Hnd; cbn.
  - exact Hnd.
  - apply IH. now apply addFile_NoDup.
Qed.

Lemma writes_getEntry n writes : forall zip,
  AdmZip.getEntry n (fold_left write_entry writes zip)
  = fold_left (fun acc e => if String.eqb (fst e) n then Some (snd e) else acc)
              writes (AdmZip.getEntry n zip).
Proof.
  induction writes as [|e writes IH]; intros zip; cbn.
  - reflexivity.
  - rewrite IH. unfold write_entry. now rewrite addFile_getEntry.
Qed.

Lemma bundle_names html assets n :
  In n (AdmZip.entryNames (bundle html assets))
  <-> n = "index.html" \/ In n (map filename assets).
Proof.
  unfold bundle. rewrite writes_names. cbn.
  rewrite map_map. cbn. intuition.
Qed.

Lemma bundle_NoDup html assets : NoDup (AdmZip.entryNames (bundle html assets)).
Proof.
  unfold bundle. apply writes_NoDup. cbn. repeat constructor. intros [].
Qed.

Lemma bundle_last_write html assets n :
  AdmZip.getEntry n (bundle html assets)
  = last_write n (("index.html", Buffer_from html utf8) :: map asset_entry assets).
Proof.
  unfold bundle, last_write. rewrite writes_getEntry. reflexivity.
Qed.

Lemma deploy_page_trace host args tr :
  API_KEY host <> EmptyString ->
  fst (deploy_page host args tr)
  = (fst (deploy_form args tr)
       ++ [EvFetch (build_request host "POST" "/pages"
                      (Some (FormBody
                         match snd (deploy_form args tr) with
                         | inr f => f
                         | inl _ => []
                         end)))])%list.
Proof.
  intros Hkey. unfold deploy_page. unfold bind at 1.
  destruct (dp_assets args) as [[|a l]|] eqn:Ha.
  - rewrite deploy_form_single by now right.
    unfold bind at 1. rewrite apiRequest_with_key by exact Hkey. cbn [fst snd].
    destruct (fetch host _) as [| |v]; try reflexivity.
    destruct (check_envelope v); [reflexivity|].
    unfold bind, lift, ret. repeat (destruct (_ : result _); try reflexivity).
  - rewrite (deploy_form_archive _ a l) by exact Ha.
    unfold bind at 1. rewrite apiRequest_with_key by exact Hkey. cbn [fst snd].
    destruct (fetch host _) as [| |v]; try reflexivity.
    destruct (check_envelope v); [reflexivity|].
    unfold bind, lift, ret. repeat (destruct (_ : result _); try reflexivity).
  - rewrite deploy_form_single by now left.
    unfold bind at 1. rewrite apiRequest_with_key by exact Hkey. cbn [fst snd].
    destruct (fetch host _) as [| |v]; try reflexivity.
    destruct (check_envelope v); [reflexivity|].
    unfold bind, lift, ret. repeat (destruct (_ : result _); try reflexivity).
Qed.

Lemma deploy_form_run args tr :
  deploy_form args tr = ((tr ++ deploy_bundling args)%list, inr (deploy_payload args)).
Proof.
  unfold deploy_bundling, deploy_payload.
  destruct (dp_assets args) as [[|a l]|] eqn:Ha.
  - rewrite deploy_form_single by now right. now rewrite app_nil_r.
  - now rewrite (deploy_form_archive _ a l) by exact Ha.
  - rewrite deploy_form_single by now left. now rewrite app_nil_r.
Qed.




(** C2: for a [deploy_page] call with the assets [a :: l], the archive in
    the payload is [bundle html (a :: l)], a function of the document and
    of the assets alone; the handler writes [index.html] and then every
    asset, in order, under its file name as given; the entry names of the
    archive are exactly [index.html] and the file names of the assets; no
    name occurs twice, and under each name the archive holds the content
    written last under it. *)
Theorem deploy_page_archive_entries html a l slug locale whatsapp :
  let assets := a :: l in
  let args := {| dp_html := html; dp_assets := Some assets; dp_slug := slug;
                 dp_locale := locale; dp_whatsapp := whatsapp |} in
  let zip := bundle html assets in
  run (deploy_form args)
  = (bundler_events html assets, inr (optional_fields args [("file", zip_file zip)]))
  /\ (forall n, In n (AdmZip.entryNames zip)
                <-> n = "index.html" \/ In n (map filename assets))
  /\ NoDup (AdmZip.entryNames zip)
  /\ (forall n, AdmZip.getEntry n zip
                = last_write n (("index.html", Buffer_from html utf8)
                                  :: map asset_entry assets)).
Proof.
  intros assets args zip. repeat split.
  - unfold run. now rewrite (deploy_form_archive args a l).
  - apply bundle_names.
  - apply bundle_names.
  - apply bundle_NoDup.
  - intros n. apply bundle_last_write.
Qed.

(** ** Failures of the transport, seen from every operation *)

Lemma provided_nonempty args :
  reaches_transport (Op_update_page args) = true ->
  exists kv body, defined_fields (Object_entries (up_fields args)) = kv :: body.
Proof.
  unfold reaches_transport. rewrite defined_fields_provided.
  destruct (provided (up_fields args)) as [|kv body]; [discriminate|].
  intros _. now exists kv, body.
Qed.

Lemma network_calls_app tr tr' :
  network_calls (tr ++ tr') = (network_calls tr + network_calls tr')%nat.
Proof.
  unfold network_calls. now rewrite filter_app, length_app.
Qed.

Lemma bundler_events_no_fetch html assets :
  network_calls (bundler_events html assets) = 0%nat.
Proof.
  unfold network_calls, bundler_events. cbn. rewrite filter_app. cbn.
  rewrite app_nil_r.
  induction assets as [|a assets IH]; [reflexivity | exact IH].
Qed.

Lemma bundling_no_fetch op : network_calls (bundling_of op) = 0%nat.
Proof.
  destruct op as [| |args| | | |]; try reflexivity.
  cbn. unfold deploy_bundling.
  destruct (dp_assets args) as [[|a l]|]; try reflexivity.
  apply bundler_events_no_fetch.
Qed.

(** Every operation that reaches the transport ends with the exception the
    transport ends with, when [apiRequest] throws whatever it is asked. *)
Lemma handler_propagates host op e (sent : string -> string -> option ApiBody -> list Event) tr :
  reaches_transport op = true ->
  (forall method path body tr0,
      apiRequest host method path body tr0 = ((tr0 ++ sent method path body)%list, inl e)) ->
  exists method path body,
    handler host op tr = (((tr ++ bundling_of op) ++ sent method path body)%list, inl e).
Proof.
  intros Hreach Hthrow.
  destruct op as [args|slug|args|args|slug|args|args]; cbn [handler bundling_of];
    try rewrite app_nil_r.
  - unfold list_pages, bind. rewrite Hthrow. eexists _, _, _; reflexivity.
  - unfold get_page, bind. rewrite Hthrow. eexists _, _, _; reflexivity.
  - unfold deploy_page. unfold bind at 1. rewrite deploy_form_run.
    unfold bind. rewrite Hthrow. eexists _, _, _; reflexivity.
  - destruct (provided_nonempty args Hreach) as (kv & body & Hbody).
    unfold update_page. rewrite Hbody. unfold bind. rewrite Hthrow.
    eexists _, _, _; reflexivity.
  - unfold delete_page, bind. rewrite Hthrow. eexists _, _, _; reflexivity.
  - unfold get_leads, bind. rewrite Hthrow. eexists _, _, _; reflexivity.
  - unfold get_analytics, bind. rewrite Hthrow. eexists _, _, _; reflexivity.
Qed.

(** C6: when the credential is absent, every call of the transport, and
    so every operation that reaches the transport (all of them except an
    [update_page] call without any provided field), fails with the
    configuration error, whose message names the setting PAGE4U_API_KEY
    and the page where a key is obtained; the call performs no network
    call. *)
Theorem missing_credential host op tr :
  API_KEY host = EmptyString ->
  reaches_transport op = true ->
  (forall method path body,
      apiRequest host method path body tr = (tr, inl (JsError missing_key_message)))
  /\ handler host op tr = ((tr ++ bundling_of op)%list, inl (JsError missing_key_message))
  /\ network_calls (fst (handler host op tr)) = network_calls tr
  /\ missing_key_message
     = "PAGE4U_API_KEY" ++ " environment variable is not set. Get your key at "
         ++ "https://page4u.ai/dashboard/settings".
Proof.
  intros Hkey Hreach.
  assert (Hrun : handler host op tr
                 = ((tr ++ bundling_of op)%list, inl (JsError missing_key_message))).
  { destruct (handler_propagates host op (JsError missing_key_message)
                (fun _ _ _ => []) tr Hreach) as (m & p & b & H).
    - intros method path body tr0. rewrite app_nil_r. now apply apiRequest_no_key.
    - rewrite H. now rewrite app_nil_r. }
  repeat split.
  - intros method path body. now apply apiRequest_no_key.
  - exact Hrun.
  - rewrite Hrun. cbn [fst]. rewrite network_calls_app, bundling_no_fetch. lia.
Qed.

Lemma missing_credential_witness :
  API_KEY (stub_host None Unreachable) = EmptyString
  /\ handler (stub_host None Unreachable) (Op_get_page "my-bakery") []
     = ([], inl (JsError missing_key_message)).
Proof.
  split; [reflexivity|].
  apply (missing_credential (stub_host None Unreachable) (Op_get_page "my-bakery") []);
    reflexivity.
Defined.

(** C6, as stated, fails on an [update_page] call without fields: with no
    credential it returns its text and raises nothing. *)
Lemma missing_credential_update_page_counterexample :
  API_KEY (stub_host None Unreachable) = EmptyString
  /\ run (handler (stub_host None Unreachable)
            (Op_update_page {| up_slug := "my-bakery"; up_fields := no_fields |}))
     = ([], inr (textResult "No fields to update.")).
Proof. split; reflexivity. Qed.

(** C4: when the backend answers with a Failure envelope, every operation
    that reaches the transport ends with an [Error] whose message is the
    code, a colon and the message of the envelope; nothing else of the
    body is read and no result text is produced.  The call made exactly
    one network call. *)
Theorem failure_envelope_raises host op code message body tr :
  API_KEY host <> EmptyString ->
  reaches_transport op = true ->
  (forall req, fetch host req = Json body) ->
  Failure code message body ->
  snd (handler host op tr) = inl (JsError (code ++ ": " ++ message))
  /\ network_calls (fst (handler host op tr)) = S (network_calls tr).
Proof.
  intros Hkey Hreach Hfetch Hfail.
  destruct (handler_propagates host op (JsError (code ++ ": " ++ message))
              (fun m p b => [EvFetch (build_request host m p b)]) tr Hreach)
    as (m & p & b & H).
  - intros method path b tr0. rewrite apiRequest_with_key by exact Hkey.
    rewrite Hfetch. now rewrite (check_envelope_Failure code message).
  - rewrite H. cbn [fst snd]. split; [reflexivity|].
    rewrite !network_calls_app, bundling_no_fetch. cbn. lia.
Qed.

Lemma failure_envelope_raises_witness :
  snd (handler (stub_host (Some "p4u_key") (Json (failure_body "NOT_FOUND" "Page not found")))
         (Op_delete_page "my-bakery") [])
  = inl (JsError "NOT_FOUND: Page not found").
Proof.
  apply (failure_envelope_raises
           (stub_host (Some "p4u_key") (Json (failure_body "NOT_FOUND" "Page not found")))
           (Op_delete_page "my-bakery") "NOT_FOUND" "Page not found"
           (failure_body "NOT_FOUND" "Page not found") []).
  - discriminate.
  - reflexivity.
  - reflexivity.
  - do 2 eexists. repeat split; reflexivity.
Defined.

(** ** update_page: the body that is sent *)

Lemma kept_spec entries k x :
  In (k, x) (kept entries) <-> exists v, x = VStr v /\ In (k, Some v) entries.
Proof.
  induction entries as [|[k' [v'|]] entries IH]; cbn.
  - split; [intros [] | intros (v & _ & [])].
  - rewrite IH. split.
    + intros [H|(v & -> & H)].
      * inversion H; subst. exists v'. split; [reflexivity | now left].
      * exists v. split; [reflexivity | now right].
    + intros (v & -> & [H|H]).
      * inversion H; subst. now left.
      * right. now exists v.
  - rewrite IH. split.
    + intros (v & -> & H). exists v. split; [reflexivity | now right].
    + intros (v & -> & [H|H]); [discriminate|]. now exists v.
Qed.

Lemma kept_NoDup entries :
  NoDup (map fst entries) -> NoDup (map fst (kept entries)).
Proof.
  induction entries as [|[k [v|]] entries IH]; cbn; intros Hnd.
  - constructor.
  - inversion Hnd as [|? ? Hk Hnd']; subst. constructor; [|now apply IH].
    intros Hin. apply Hk. now apply kept_keys.
  - inversion Hnd; subst. now apply IH.
Qed.

Lemma NoDup_keys_functional {A} (entries : list (string * A)) k v v' :
  NoDup (map fst entries) -> In (k, v) entries -> In (k, v') entries -> v = v'.
Proof.
  induction entries as [|[k0 v0] entries IH]; cbn; intros Hnd H1 H2; [contradiction|].
  inversion Hnd as [|? ? Hk0 Hnd']; subst.
  destruct H1 as [H1|H1], H2 as [H2|H2].
  - congruence.
  - inversion H1; subst. elim Hk0. apply in_map_iff. now exists (k, v').
  - inversion H2; subst. elim Hk0. apply in_map_iff. now exists (k, v).
  - now apply IH.
Qed.

Lemma update_page_trace host args tr :
  API_KEY host <> EmptyString ->
  provided (up_fields args) <> [] ->
  fst (update_page host args tr) = (tr ++ [EvFetch (update_request host args)])%list.
Proof.
  intros Hkey Hsome. unfold update_page. rewrite defined_fields_provided.
  destruct (provided (up_fields args)) as [|kv body] eqn:Hbody; [congruence|].
  unfold bind at 1. rewrite apiRequest_with_key by exact Hkey.
  unfold update_request. rewrite Hbody.
  change (build_request host "PUT" ("/pages/" ++ encodeURIComponent (up_slug args))
            (Some (RecordBody (kv :: body))))
    with {| req_url := BASE_URL host ++ "/api/v1" ++ "/pages/"
                         ++ encodeURIComponent (up_slug args);
            req_method := "PUT";
            req_headers := [("Authorization", "Bearer " ++ API_KEY host);
                            ("X-Page4U-Client", "mcp");
                            ("Content-Type", "application/json")];
            req_body := Some (JsonText (kv :: body)) |}.
  destruct (fetch host _) as [| |v]; try reflexivity.
  destruct (check_envelope v); [reflexivity|].
  unfold bind, lift, ret. repeat (destruct (_ : result _); try reflexivity).
Qed.

(** C7: an [update_page] call that provides at least one field sends one
    PUT request whose JSON body holds exactly the provided fields, each
    with the string the caller gave: a field left undefined is not in the
    body, and a field given as the empty string is in the body with the
    empty string. *)
Theorem update_page_sends_provided host args tr :
  API_KEY host <> EmptyString ->
  provided (up_fields args) <> [] ->
  let body := provided (up_fields args) in
  let entries := Object_entries (up_fields args) in
  fst (update_page host args tr) = (tr ++ [EvFetch (update_request host args)])%list
  /\ req_body (update_request host args) = Some (JsonText body)
  /\ (forall k x, In (k, x) body <-> exists v, x = VStr v /\ In (k, Some v) entries)
  /\ (forall k, In (k, None) entries -> ~ In k (map fst body))
  /\ (forall k, In (k, Some EmptyString) entries -> In (k, VStr EmptyString) body)
  /\ NoDup (map fst body).
Proof.
  intros Hkey Hsome body entries. repeat split.
  - now apply update_page_trace.
  - now apply kept_spec.
  - now apply kept_spec.
  - intros k Hnone Hin. apply in_map_iff in Hin. destruct Hin as ([k' x] & Hk & Hin).
    cbn in Hk. subst k'. apply kept_spec in Hin. destruct Hin as (v & _ & Hin).
    pose proof (NoDup_keys_functional _ _ _ _ (Object_entries_NoDup (up_fields args))
                  Hnone Hin) as E.
    discriminate E.
  - intros k Hin. apply kept_spec. now exists EmptyString.
  - apply kept_NoDup. apply Object_entries_NoDup.
Qed.

Lemma update_page_sends_provided_witness :
  provided (up_fields headline_and_phone)
  = [("headline", VStr EmptyString); ("phone", VStr "050-1234567")]
  /\ fst (update_page (stub_host (Some "p4u_key") Unreachable) headline_and_phone [])
     = [EvFetch (update_request (stub_host (Some "p4u_key") Unreachable) headline_and_phone)].
Proof.
  split; [reflexivity|].
  apply (update_page_sends_provided
           (stub_host (Some "p4u_key") Unreachable) headline_and_phone []).
  - discriminate.
  - discriminate.
Defined.

(** ** list_pages and get_leads: the texts *)

(** C8: when the backend answers with a Success envelope whose data is
    the empty array, [list_pages] returns one content item of type text
    whose text is [No pages found.], and [get_leads] returns one whose
    text is [No leads found for "<slug>".] with the slug of the call. *)
Theorem empty_result_texts host o tr :
  API_KEY host <> EmptyString ->
  (forall req, fetch host req = Json (VObj o)) ->
  lookup "success" o = Some (VBool true) ->
  lookup "data" o = Some (VArr []) ->
  (forall args,
      snd (list_pages host args tr)
      = inr {| result_content :=
                 [ {| item_type := "text"; item_text := "No pages found." |} ] |})
  /\ (forall args,
        snd (get_leads host args tr)
        = inr {| result_content :=
                   [ {| item_type := "text";
                        item_text := "No leads found for " ++ dq ++ gl_slug args ++ dq ++ "." |} ] |}).
Proof.
  intros Hkey Hfetch Hs Hd. split; intros args.
  - unfold list_pages. unfold bind at 1. rewrite apiRequest_with_key by exact Hkey.
    rewrite Hfetch. unfold check_envelope. cbn. rewrite Hs. cbn.
    unfold bind, lift. cbn. rewrite Hd. reflexivity.
  - unfold get_leads. unfold bind at 1. rewrite apiRequest_with_key by exact Hkey.
    rewrite Hfetch. unfold check_envelope. cbn. rewrite Hs. cbn.
    unfold bind, lift. cbn. rewrite Hd. reflexivity.
Qed.

Lemma empty_result_texts_witness :
  snd (list_pages (stub_host (Some "p4u_key") (Json (VObj empty_success)))
         {| lp_status := None |} [])
  = inr {| result_content :=
             [ {| item_type := "text"; item_text := "No pages found." |} ] |}
  /\ snd (get_leads (stub_host (Some "p4u_key") (Json (VObj empty_success)))
            my_bakery_leads [])
     = inr {| result_content :=
                [ {| item_type := "text";
                     item_text := "No leads found for " ++ dq ++ "my-bakery" ++ dq ++ "." |} ] |}.
Proof.
  pose proof (empty_result_texts (stub_host (Some "p4u_key") (Json (VObj empty_success)))
                empty_success [] ltac:(discriminate) ltac:(reflexivity)
                eq_refl eq_refl) as [Hpages Hleads].
  split; [apply Hpages | apply Hleads].
Defined.

Lemma map_elems_Forall2 f l : forall lines,
  map_elems f l = inr lines -> Forall2 (fun x line => f x = inr line) l lines.
Proof.
  induction l as [|x l IH]; cbn; intros lines H.
  - inversion H. constructor.
  - destruct (f x) as [e|s] eqn:Hx; [discriminate|]. cbn in H.
    destruct (map_elems f l) as [e|r]; [discriminate|]. cbn in H.
    inversion H; subst. constructor; [exact Hx | now apply IH].
Qed.

Lemma push_if_truthy_optional label o k parts :
  optional_string o k ->
  exists parts', push_if_truthy label (VObj o) k parts = inr parts'.
Proof.
  unfold push_if_truthy. cbn. intros [->|(s & ->)]; cbn.
  - now exists parts.
  - destruct (truthy_str s); eexists; reflexivity.
Qed.

Lemma leads_line_Lead host l :
  Lead host l -> exists line, leads_line host l = inr line.
Proof.
  intros (o & -> & Hn & Hp & He & Hm & (s & Hs) & (c & d & Hc & Hd)).
  unfold leads_line.
  destruct (push_if_truthy_optional "Name" o "name" [] Hn) as (p1 & ->). cbn [rbind].
  destruct (push_if_truthy_optional "Phone" o "phone" p1 Hp) as (p2 & ->). cbn [rbind].
  destruct (push_if_truthy_optional "Email" o "email" p2 He) as (p3 & ->). cbn [rbind].
  destruct (push_if_truthy_optional "Message" o "message" p3 Hm) as (p4 & ->). cbn [rbind].
  cbn. rewrite Hs, Hc. cbn. rewrite Hd. cbn. eexists; reflexivity.
Qed.

Lemma map_elems_Leads host data :
  Forall (Lead host) data -> exists lines, map_elems (leads_line host) data = inr lines.
Proof.
  induction 1 as [|l data Hl _ (lines & IH)]; cbn.
  - now exists [].
  - destruct (leads_line_Lead host l Hl) as (line & ->). rewrite IH. cbn.
    eexists; reflexivity.
Qed.

Lemma push_if_truthy_part label o k parts :
  optional_string o k ->
  push_if_truthy label (VObj o) k parts = inr (parts ++ optional_part label o k)%list.
Proof.
  unfold push_if_truthy, optional_part. cbn. intros [->|(s & ->)]; cbn.
  - now rewrite app_nil_r.
  - destruct (truthy_str s); [reflexivity | now rewrite app_nil_r].
Qed.

Lemma leads_line_lead_rendering host l :
  Lead host l ->
  exists line, leads_line host l = inr line /\ lead_rendering host l line.
Proof.
  intros (o & -> & Hn & Hp & He & Hm & (s & Hs) & (c & d & Hc & Hd)).
  eexists. split.
  - unfold leads_line.
    rewrite (push_if_truthy_part "Name" o "name" [] Hn). cbn [rbind].
    rewrite (push_if_truthy_part "Phone" o "phone" _ Hp). cbn [rbind].
    rewrite (push_if_truthy_part "Email" o "email" _ He). cbn [rbind].
    rewrite (push_if_truthy_part "Message" o "message" _ Hm). cbn [rbind].
    cbn [get]. rewrite Hs, Hc. cbn [rbind ToString]. rewrite Hd. cbn [rbind].
    unfold push. rewrite <- !app_assoc. reflexivity.
  - exists o, s, c, d. cbn [app]. repeat split; assumption || reflexivity.
Qed.

Lemma map_elems_lead_renderings host data :
  Forall (Lead host) data ->
  exists lines,
    map_elems (leads_line host) data = inr lines
    /\ Forall2 (lead_rendering host) data lines.
Proof.
  induction 1 as [|l data Hl _ (lines & IH & Hall)]; cbn.
  - exists []. split; [reflexivity | constructor].
  - destruct (leads_line_lead_rendering host l Hl) as (line & -> & Hline).
    rewrite IH. cbn. exists (line :: lines). split; [reflexivity|].
    now constructor.
Qed.

Lemma lines_of_single s : has_line_feed s = false -> lines_of s = [s].
Proof.
  induction s as [|c s IH]; cbn; [reflexivity|].
  intros H. apply orb_false_iff in H. destruct H as [Hc Hs].
  rewrite Hc, (IH Hs). reflexivity.
Qed.

Lemma lines_of_cons s t :
  has_line_feed s = false -> lines_of (s ++ nl ++ t) = s :: lines_of t.
Proof.
  induction s as [|c s IH]; cbn; [reflexivity|].
  intros H. apply orb_false_iff in H. destruct H as [Hc Hs].
  rewrite Hc. cbn in IH. rewrite (IH Hs). reflexivity.
Qed.

Lemma lines_of_join lines :
  lines <> [] ->
  Forall (fun line => has_line_feed line = false) lines ->
  lines_of (join nl lines) = lines.
Proof.
  induction lines as [|x lines IH]; [congruence|].
  intros _ Hall. inversion Hall as [|? ? Hx Hrest]; subst.
  destruct lines as [|y lines].
  - cbn. now apply lines_of_single.
  - change (join nl (x :: y :: lines)) with (x ++ nl ++ join nl (y :: lines)).
    rewrite lines_of_cons by exact Hx. rewrite IH; [reflexivity | discriminate | exact Hrest].
Qed.

(** C9, as stated, fails when a field of a lead holds a line feed, as the
    message of a contact form may: the fields are not escaped, and here
    the text that follows the header has two lines for one lead. *)
Lemma get_leads_line_feed_counterexample :
  exists rendering,
    snd (run (get_leads (stub_host (Some "p4u_key") (Json (VObj one_lead_success)))
                my_bakery_leads))
    = inr {| result_content :=
               [ {| item_type := "text";
                    item_text := "1 lead(s) for " ++ dq ++ "my-bakery" ++ dq ++ ":"
                                   ++ nl ++ nl ++ rendering |} ] |}
    /\ List.length (lines_of rendering) = 2%nat
    /\ List.length [two_line_lead] = 1%nat.
Proof.
  exists ("Message: first" ++ nl ++ "second | Status: new | Date: 1/2/2025").
  repeat split.
Qed.

(** C9, amended: when the backend answers a [get_leads] call with a
    Success envelope whose data is a non-empty array of lead records, the
    result is one content item of type text whose text is the header
    [N lead(s) for "<slug>":], an empty line, and the renderings of the
    leads joined by line feeds, one rendering per lead, in order; N, a
    safe integer, is the total of the envelope when it has one and the
    number of leads otherwise.  A rendering holds the parts of its lead
    that are present and not empty, then the status and the date; when no
    rendering holds a line feed, the text after the header has exactly
    one line per lead. *)
Theorem get_leads_header_and_lines host args o data total tr :
  API_KEY host <> EmptyString ->
  (forall req, fetch host req = Json (VObj o)) ->
  lookup "success" o = Some (VBool true) ->
  lookup "data" o = Some (VArr data) ->
  lookup "total" o = option_map VNum total ->
  safe_integer (match total with
                | Some n => n
                | None => Z.of_nat (List.length data)
                end) ->
  data <> [] ->
  Forall (Lead host) data ->
  exists lines,
    snd (get_leads host args tr)
    = inr {| result_content :=
               [ {| item_type := "text";
                    item_text :=
                      Number_toString (match total with
                                       | Some n => n
                                       | None => Z.of_nat (List.length data)
                                       end)
                        ++ " lead(s) for " ++ dq ++ gl_slug args ++ dq ++ ":"
                        ++ nl ++ nl ++ join nl lines |} ] |}
    /\ Forall2 (lead_rendering host) data lines
    /\ List.length lines = List.length data
    /\ (Forall (fun line => has_line_feed line = false) lines ->
        lines_of (join nl lines) = lines).
Proof.
  intros Hkey Hfetch Hs Hd Ht _ Hne Hleads.
  destruct (map_elems_lead_renderings host data Hleads) as (lines & Hlines & Hall).
  assert (Hlen : List.length lines = List.length data).
  { symmetry. eapply Forall2_length. exact Hall. }
  exists lines. repeat split.
  - unfold get_leads. unfold bind at 1. rewrite apiRequest_with_key by exact Hkey.
    rewrite Hfetch. unfold check_envelope. cbn. rewrite Hs. cbn.
    unfold bind, lift. cbn. rewrite Hd, Ht.
    destruct data as [|l data]; [congruence|].
    cbn [get is_zero List.length Z.of_nat Z.eqb String.eqb Ascii.eqb Bool.eqb].
    cbn [array_map]. rewrite Hlines.
    destruct total as [n|]; reflexivity.
  - exact Hall.
  - exact Hlen.
  - apply lines_of_join. intros ->. destruct data; [congruence | discriminate Hlen].
Qed.

Lemma get_leads_header_and_lines_witness :
  exists lines,
    snd (get_leads (stub_host (Some "p4u_key") (Json (VObj two_of_five))) my_bakery_leads [])
    = inr {| result_content :=
               [ {| item_type := "text";
                    item_text := "5" ++ " lead(s) for " ++ dq ++ "my-bakery" ++ dq ++ ":"
                                   ++ nl ++ nl ++ join nl lines |} ] |}
    /\ List.length lines = 2%nat.
Proof.
  destruct (get_leads_header_and_lines
              (stub_host (Some "p4u_key") (Json (VObj two_of_five)))
              my_bakery_leads two_of_five two_leads (Some 5%Z) [])
    as (lines & Htext & _ & Hlen & _).
  - discriminate.
  - reflexivity.
  - reflexivity.
  - reflexivity.
  - reflexivity.
  - split; reflexivity.
  - discriminate.
  - repeat constructor.
    + eexists. split; [reflexivity|]. unfold optional_string. cbn.
      repeat split; eauto.
    + eexists. split; [reflexivity|]. unfold optional_string. cbn.
      repeat split; eauto.
  - exists lines. split; [exact Htext | exact Hlen].
Defined.

(** ** Malformed envelopes *)


Lemma get_inl v k e : get v k = inl e -> e = TypeError.
Proof. destruct v; cbn; congruence. Qed.

Lemma ToString_VArr l :
  ToString (VArr l)
  = rbind (map_elems (fun x => if is_nullish x then inr EmptyString else ToString x) l)
          (fun ss => inr (join "," ss)).
Proof.
  cbn. f_equal. induction l as [|x l IH]; cbn; [reflexivity|]. now rewrite IH.
Qed.

Lemma map_elems_inl f l e :
  (forall x, In x l -> forall e, f x = inl e -> e = TypeError) ->
  map_elems f l = inl e -> e = TypeError.
Proof.
  induction l as [|x l IH]; cbn; intros Hf H; [discriminate|].
  destruct (f x) as [e'|s] eqn:Hx; cbn in H.
  - inversion H; subst. apply (Hf x); [now left | exact Hx].
  - destruct (map_elems f l) as [e'|r]; cbn in H; [|discriminate].
    inversion H; subst. apply IH; [|reflexivity].
    intros y Hy. apply Hf. now right.
Qed.

Lemma ToString_inl v : forall e, ToString v = inl e -> e = TypeError.
Proof.
  induction v as [| |b|n|s|l IH|o _] using value_induction; intros e H.
  - discriminate.
  - discriminate.
  - destruct b; discriminate.
  - discriminate.
  - discriminate.
  - rewrite ToString_VArr in H.
    destruct (map_elems _ l) as [e'|ss] eqn:Hl; cbn in H; [|discriminate].
    inversion H; subst. clear H. revert Hl. apply map_elems_inl.
    intros x Hin e0 H. rewrite Forall_forall in IH.
    destruct (is_nullish x); [discriminate | now apply (IH x Hin)].
  - cbn in H. destruct (has_key "toString" o); congruence.
Qed.

Lemma check_envelope_cases body :
  (success_truthy body = true /\ check_envelope body = inr body)
  \/ (success_truthy body = false
      /\ (check_envelope body = inl TypeError
          \/ exists code message,
               check_envelope body = inl (JsError (code ++ ": " ++ message)))).
Proof.
  assert (Herr : forall o,
             rbind (get (VObj o) "error") (fun error =>
             rbind (get error "code") (fun code =>
             rbind (ToString code) (fun code_s =>
             rbind (get (VObj o) "error") (fun error' =>
             rbind (get error' "message") (fun message =>
             rbind (ToString message) (fun message_s =>
             inl (JsError (code_s ++ ": " ++ message_s))))))))
             = (inl TypeError : result value)
             \/ exists code message,
                 rbind (get (VObj o) "error") (fun error =>
                 rbind (get error "code") (fun code =>
                 rbind (ToString code) (fun code_s =>
                 rbind (get (VObj o) "error") (fun error' =>
                 rbind (get error' "message") (fun message =>
                 rbind (ToString message) (fun message_s =>
                 inl (JsError (code_s ++ ": " ++ message_s))))))))
                 = (inl (JsError (code ++ ": " ++ message)) : result value)).
  { intros o. cbn [get rbind].
    set (e := match lookup "error" o with Some x => x | None => VUndefined end).
    destruct (get e "code") as [x|code] eqn:Hc; cbn.
    { left. now rewrite (get_inl _ _ _ Hc). }
    destruct (ToString code) as [x|code_s] eqn:Hcs; cbn.
    { left. now rewrite (ToString_inl _ _ Hcs). }
    destruct (get e "message") as [x|message] eqn:Hm; cbn.
    { left. now rewrite (get_inl _ _ _ Hm). }
    destruct (ToString message) as [x|message_s] eqn:Hms; cbn.
    { left. now rewrite (ToString_inl _ _ Hms). }
    right. now exists code_s, message_s. }
  unfold check_envelope, success_truthy.
  destruct body as [| |b|n|s|l|o]; try (right; split; [reflexivity | now left]).
  cbn [get rbind]. destruct (lookup "success" o) as [s|].
  - destruct (truthy s); cbn [negb rbind]; [left; now split|].
    right. split; [reflexivity|]. apply (Herr o).
  - cbn [truthy negb]. right. split; [reflexivity|]. apply (Herr o).
Qed.




(** ** Empty strings in optional parameters *)

(** C10, as stated, fails for [locale]: the empty string is not a value
    of the enum of the schema, so the call is rejected before the handler
    runs and sends nothing, whereas the call without [locale] sends its
    request. *)
Lemma empty_locale_counterexample :
  run (call_tool (stub_host (Some "p4u_key") Unreachable)
         (Call_deploy_page "<html></html>" None None (Some EmptyString) None))
  = ([], inl (ValidationError "locale"))
  /\ network_calls
       (fst (run (call_tool (stub_host (Some "p4u_key") Unreachable)
                    (Call_deploy_page "<html></html>" None None None None))))
     = 1%nat.
Proof. split; reflexivity. Qed.

(** C10, amended: in a [deploy_page] call an empty string given for
    [slug] or for [whatsapp] is not appended to the form, and the call
    behaves as the call without that parameter; an empty string given for
    [locale] is rejected by the schema, whose enum holds [he] and [en]
    only, and no request is sent; in a [get_leads] call an empty string
    given for [status] adds no [status] parameter to the query, and the
    call behaves as the call without it. *)
Theorem empty_string_parameters host html assets slug locale whatsapp leads_slug limit tr :
  call_tool host (Call_deploy_page html assets (Some EmptyString) locale whatsapp) tr
  = call_tool host (Call_deploy_page html assets None locale whatsapp) tr
  /\ call_tool host (Call_deploy_page html assets slug locale (Some EmptyString)) tr
     = call_tool host (Call_deploy_page html assets slug locale None) tr
  /\ call_tool host (Call_deploy_page html assets slug (Some EmptyString) whatsapp) tr
     = (tr, inl (ValidationError "locale"))
  /\ leads_query {| gl_slug := leads_slug; gl_status := Some EmptyString; gl_limit := limit |}
     = leads_query {| gl_slug := leads_slug; gl_status := None; gl_limit := limit |}
  /\ call_tool host (Call_get_leads {| gl_slug := leads_slug; gl_status := Some EmptyString;
                                       gl_limit := limit |}) tr
     = call_tool host (Call_get_leads {| gl_slug := leads_slug; gl_status := None;
                                         gl_limit := limit |}) tr.
Proof.
  repeat split.
  - unfold call_tool, validate.
    destruct (optional_enum parse_Locale "locale" locale) as [e|l]; reflexivity.
  - unfold call_tool, validate.
    destruct (optional_enum parse_Locale "locale" locale) as [e|l]; reflexivity.
  - unfold call_tool, validate. cbn.
    destruct limit as [n|]; [|reflexivity].
    destruct (Z.leb 1 n && Z.leb n 500); reflexivity.
Qed.

(** * Further properties *)

(** ** One request per call *)

Ltac settle_results :=
  repeat (cbn [fst snd];
          try reflexivity;
          match goal with
          | |- context [match ?x with _ => _ end] =>
              match type of x with
              | result _ => destruct x
              | sum _ _ => destruct x
              | bool => destruct x
              | Response => destruct x
              end
          | |- context [if ?x then _ else _] => destruct x
          end).

Lemma handler_trace host op tr :
  API_KEY host <> EmptyString ->
  reaches_transport op = true ->
  fst (handler host op tr)
  = ((tr ++ bundling_of op) ++ [EvFetch (request_of host op)])%list.
Proof.
  intros Hkey Hreach.
  destruct op as [args|slug|args|args|slug|args|args]; cbn [handler bundling_of request_of];
    try rewrite app_nil_r.
  - unfold list_pages. unfold bind at 1. rewrite apiRequest_with_key by exact Hkey.
    destruct (lp_status args) as [[]|]; cbn [PageStatus_string truthy_str];
      unfold bind, lift, ret; settle_results.
  - unfold get_page. unfold bind at 1. rewrite apiRequest_with_key by exact Hkey.
    unfold bind, lift, ret; settle_results.
  - rewrite deploy_page_trace by exact Hkey. rewrite deploy_form_run. reflexivity.
  - apply update_page_trace; [exact Hkey|].
    unfold reaches_transport in Hreach.
    destruct (provided (up_fields args)); [discriminate | congruence].
  - unfold delete_page. unfold bind at 1. rewrite apiRequest_with_key by exact Hkey.
    unfold bind, lift, ret; settle_results.
  - unfold get_leads. unfold bind at 1. rewrite apiRequest_with_key by exact Hkey.
    unfold bind, lift, ret; settle_results.
  - unfold get_analytics. unfold bind at 1. rewrite apiRequest_with_key by exact Hkey.
    unfold bind, lift, ret; settle_results.
Qed.

Lemma handler_trace_no_key host op tr :
  API_KEY host = EmptyString ->
  fst (handler host op tr) = (tr ++ bundling_of op)%list.
Proof.
  intros Hkey.
  destruct (reaches_transport op) eqn:Hreach.
  - destruct (handler_propagates host op (JsError missing_key_message)
                (fun _ _ _ => []) tr Hreach) as (m & p & b & H).
    + intros method path body tr0. rewrite app_nil_r. now apply apiRequest_no_key.
    + rewrite H. cbn [fst]. now rewrite app_nil_r.
  - destruct op as [| | |args| | |]; try discriminate.
    cbn [handler bundling_of]. rewrite update_page_short_circuit.
    + cbn [fst]. now rewrite app_nil_r.
    + unfold reaches_transport in Hreach.
      destruct (provided (up_fields args)); [reflexivity | discriminate].
Qed.

Lemma handler_trace_short_circuit host op tr :
  reaches_transport op = false ->
  handler host op tr = (tr, inr (textResult "No fields to update.")).
Proof.
  intros Hreach. destruct op as [| | |args| | |]; try discriminate.
  cbn [handler]. apply update_page_short_circuit.
  unfold reaches_transport in Hreach.
  destruct (provided (up_fields args)); [reflexivity | discriminate].
Qed.

Lemma request_of_method host op : req_method (request_of host op) = method_of op.
Proof. destruct op; reflexivity. Qed.

Lemma bundling_not_fetch op req : ~ In (EvFetch req) (bundling_of op).
Proof.
  destruct op as [| |args| | | |]; try (intros H; exact H).
  cbn [bundling_of]. unfold deploy_bundling.
  destruct (dp_assets args) as [[|a l]|]; try (intros H; exact H).
  unfold bundler_events. generalize (a :: l). clear a l. intros assets.
  intros [H|[H|H]]; try discriminate.
  apply in_app_iff in H. destruct H as [H|[H|[]]]; [|discriminate].
  apply in_map_iff in H. destruct H as (x & Hx & _). discriminate.
Qed.

(** X1: with a credential, an operation that reaches the transport leaves
    in the trace its bundling calls followed by exactly one request, the
    request of the operation, whatever the backend answers: a network
    failure, a body that is not JSON, a failure or a success. *)
Theorem one_request_per_call host op tr :
  API_KEY host <> EmptyString ->
  reaches_transport op = true ->
  fst (handler host op tr)
  = ((tr ++ bundling_of op) ++ [EvFetch (request_of host op)])%list
  /\ network_calls (fst (handler host op tr)) = S (network_calls tr)
  /\ req_method (request_of host op) = method_of op.
Proof.
  intros Hkey Hreach. split; [|split].
  - now apply handler_trace.
  - rewrite handler_trace by assumption.
    rewrite !network_calls_app, bundling_no_fetch. cbn. lia.
  - apply request_of_method.
Qed.

Lemma one_request_per_call_witness :
  fst (handler (stub_host (Some "p4u_key") NotJson) (Op_get_page "my-bakery") [])
  = [EvFetch
       {| req_url := "https://page4u.ai/api/v1/pages/my-bakery";
          req_method := "GET";
          req_headers := [("Authorization", "Bearer p4u_key"); ("X-Page4U-Client", "mcp")];
          req_body := None |}].
Proof.
  apply (proj1 (one_request_per_call (stub_host (Some "p4u_key") NotJson)
                  (Op_get_page "my-bakery") [] ltac:(discriminate) eq_refl)).
Defined.

(** X2: every request a call sends was built with a credential: it
    carries the bearer token and the client header, its method is the
    method of the operation, its URL lies under the base URL and the
    [/api/v1/pages] prefix, and it declares a JSON content type exactly
    when the operation is [update_page].  In particular no request leaves
    without a credential. *)
Theorem every_request_is_authenticated host op req :
  In (EvFetch req) (fst (run (handler host op))) ->
  API_KEY host <> EmptyString
  /\ req = request_of host op
  /\ In ("Authorization", "Bearer " ++ API_KEY host) (req_headers req)
  /\ In ("X-Page4U-Client", "mcp") (req_headers req)
  /\ req_method req = method_of op
  /\ (exists rest, req_url req = BASE_URL host ++ "/api/v1/pages" ++ rest)
  /\ (In ("Content-Type", "application/json") (req_headers req)
      <-> exists args, op = Op_update_page args).
Proof.
  unfold run. intros Hin.
  destruct (string_dec (API_KEY host) EmptyString) as [Hkey|Hkey].
  { rewrite handler_trace_no_key in Hin by exact Hkey.
    cbn in Hin. now apply bundling_not_fetch in Hin. }
  destruct (reaches_transport op) eqn:Hreach.
  2:{ rewrite handler_trace_short_circuit in Hin by exact Hreach. destruct Hin. }
  rewrite handler_trace in Hin by assumption. cbn [app] in Hin.
  apply in_app_iff in Hin. destruct Hin as [Hin|[Hin|[]]].
  { now apply bundling_not_fetch in Hin. }
  inversion Hin; subst req. clear Hin.
  split; [exact Hkey|]. split; [reflexivity|].
  assert (Hno : forall h, ~ In ("Content-Type", "application/json") (base_headers h)).
  { intros h [H|[H|[]]]; discriminate. }
  destruct op as [args|slug|args|args|slug|args|args];
    cbn [request_of method_of build_request deploy_request update_request
         req_headers req_method req_url];
    (split; [cbn; now left|]); (split; [cbn; right; now left|]);
    (split; [reflexivity|]); split.
  - destruct (lp_status args) as [st|].
    + now exists ("?status=" ++ PageStatus_string st).
    + now exists EmptyString.
  - split; [intros H; now apply Hno in H | intros (a & H); discriminate].
  - now exists ("/" ++ encodeURIComponent slug).
  - split; [intros H; now apply Hno in H | intros (a & H); discriminate].
  - now exists EmptyString.
  - split; [intros H; now apply Hno in H | intros (a & H); discriminate].
  - now exists ("/" ++ encodeURIComponent (up_slug args)).
  - split; [intros _; now exists args | intros _; cbn; auto].
  - now exists ("/" ++ encodeURIComponent slug).
  - split; [intros H; now apply Hno in H | intros (a & H); discriminate].
  - now exists ("/" ++ encodeURIComponent (gl_slug args) ++ "/leads"
                  ++ query_suffix (leads_query args)).
  - split; [intros H; now apply Hno in H | intros (a & H); discriminate].
  - now exists ("/" ++ encodeURIComponent (ga_slug args) ++ "/analytics"
                  ++ query_suffix
                       (params_toString
                          (set_if_truthy "to" (ga_to args)
                             (set_if_truthy "from" (ga_from args) [])))).
  - split; [intros H; now apply Hno in H | intros (a & H); discriminate].
Qed.

Lemma every_request_is_authenticated_witness :
  API_KEY (stub_host (Some "p4u_key") Unreachable) <> EmptyString
  /\ req_method (request_of (stub_host (Some "p4u_key") Unreachable)
                   (Op_delete_page "my-bakery")) = "DELETE".
Proof.
  pose proof (every_request_is_authenticated
                (stub_host (Some "p4u_key") Unreachable) (Op_delete_page "my-bakery")
                (request_of (stub_host (Some "p4u_key") Unreachable)
                   (Op_delete_page "my-bakery"))
                (or_introl eq_refl)) as H.
  split; apply H.
Defined.

(** ** The base URL *)

Lemma strip_trailing_slashes_split s :
  exists n, s = strip_trailing_slashes s ++ slashes n.
Proof.
  induction s as [|c s (n & IH)]; [now exists 0%nat|].
  cbn. destruct (strip_trailing_slashes s) as [|c' r] eqn:Hs.
  - cbn in IH. destruct (Ascii.eqb_spec c "/") as [->|Hc].
    + exists (S n). cbn. now rewrite IH at 1.
    + exists n. cbn. now rewrite IH at 1.
  - exists n. rewrite IH at 1. reflexivity.
Qed.

Lemma strip_trailing_slashes_end s :
  ends_with_slash (strip_trailing_slashes s) = false.
Proof.
  induction s as [|c s IH]; [reflexivity|].
  cbn. destruct (strip_trailing_slashes s) as [|c' r] eqn:Hs.
  - destruct (Ascii.eqb_spec c "/") as [->|Hc]; [reflexivity|].
    cbn. now apply Ascii.eqb_neq.
  - exact IH.
Qed.

Lemma strip_trailing_slashes_fixed s :
  ends_with_slash s = false -> strip_trailing_slashes s = s.
Proof.
  induction s as [|c s IH]; [reflexivity|].
  cbn [ends_with_slash]. destruct s as [|c' r].
  - intros Hc. cbn. now rewrite Hc.
  - intros H. specialize (IH H). remember (String c' r) as t eqn:Ht.
    cbn [strip_trailing_slashes]. rewrite IH. subst t. reflexivity.
Qed.

(** X3: the base URL never ends with a slash: it is the configured URL,
    or the default one, without its final run of slashes, and a URL that
    does not end with a slash is taken as it is.  Normalising twice
    changes nothing. *)
Theorem BASE_URL_normalised host :
  ends_with_slash (BASE_URL host) = false
  /\ (exists n,
        match PAGE4U_API_URL host with Some u => u | None => "https://page4u.ai" end
        = BASE_URL host ++ slashes n)
  /\ (forall u, PAGE4U_API_URL host = Some u -> ends_with_slash u = false ->
                BASE_URL host = u)
  /\ strip_trailing_slashes (BASE_URL host) = BASE_URL host.
Proof.
  unfold BASE_URL. repeat split.
  - apply strip_trailing_slashes_end.
  - apply strip_trailing_slashes_split.
  - intros u -> Hu. now apply strip_trailing_slashes_fixed.
  - apply strip_trailing_slashes_fixed. apply strip_trailing_slashes_end.
Qed.

Lemma BASE_URL_normalised_witness :
  BASE_URL {| PAGE4U_API_KEY := None; PAGE4U_API_URL := Some "http://localhost:3000";
              fetch := fun _ => Unreachable;
              Date_toLocaleDateString := ToString; toLocaleString := ToString;
              JSON_stringify_pretty := fun _ => "{}" |}
  = "http://localhost:3000".
Proof.
  apply (proj1 (proj2 (proj2 (BASE_URL_normalised _)))); reflexivity.
Defined.

(** ** Slugs and queries in the URL *)

Lemma list_ascii_app s1 s2 :
  list_ascii_of_string (s1 ++ s2)
  = (list_ascii_of_string s1 ++ list_ascii_of_string s2)%list.
Proof. induction s1 as [|c s1 IH]; cbn; [reflexivity | now rewrite IH]. Qed.

Lemma percent_byte_uri_safe c :
  forallb uri_safe (list_ascii_of_string (percent_byte c)) = true.
Proof. destruct c as [[] [] [] [] [] [] [] []]; reflexivity. Qed.

Lemma percent_byte_query_safe c :
  forallb query_safe (list_ascii_of_string (percent_byte c)) = true.
Proof. destruct c as [[] [] [] [] [] [] [] []]; reflexivity. Qed.

Lemma percent_byte_decode c :
  ascii_of_nat (hex_value (hex_digit (nat_of_ascii c / 16)) * 16
                + hex_value (hex_digit (nat_of_ascii c mod 16))) = c.
Proof. destruct c as [[] [] [] [] [] [] [] []]; reflexivity. Qed.

Lemma encodeURIComponent_safe s :
  forallb uri_safe (list_ascii_of_string (encodeURIComponent s)) = true.
Proof.
  induction s as [|c s IH]; [reflexivity|].
  cbn [encodeURIComponent]. rewrite list_ascii_app, forallb_app, IH, andb_true_r.
  destruct (is_alnum c || mem_ascii c "-_.!~*'()") eqn:Hc.
  - cbn. rewrite andb_true_r. unfold uri_safe.
    apply orb_true_iff in Hc. destruct Hc as [Hc|Hc].
    + now rewrite Hc.
    + apply orb_true_iff. right. unfold mem_ascii in *. cbn in *.
      repeat (apply orb_true_iff in Hc; destruct Hc as [Hc|Hc];
              [rewrite Hc; rewrite ?orb_true_r; reflexivity|]).
      discriminate.
  - apply percent_byte_uri_safe.
Qed.

Lemma percent_decode_encode s : percent_decode (encodeURIComponent s) = s.
Proof.
  induction s as [|c s IH]; [reflexivity|].
  cbn [encodeURIComponent].
  destruct (is_alnum c || mem_ascii c "-_.!~*'()") eqn:Hc.
  - change (String c EmptyString ++ encodeURIComponent s)
      with (String c (encodeURIComponent s)).
    cbn [percent_decode]. destruct (Ascii.eqb_spec c "%") as [->|_].
    + discriminate Hc.
    + now rewrite IH.
  - change (percent_byte c ++ encodeURIComponent s)
      with (String "%" (String (hex_digit (nat_of_ascii c / 16))
                          (String (hex_digit (nat_of_ascii c mod 16))
                             (encodeURIComponent s)))).
    change (percent_decode
              (String "%" (String (hex_digit (nat_of_ascii c / 16))
                             (String (hex_digit (nat_of_ascii c mod 16))
                                (encodeURIComponent s)))))
      with (String (ascii_of_nat
                      (hex_value (hex_digit (nat_of_ascii c / 16)) * 16
                       + hex_value (hex_digit (nat_of_ascii c mod 16))))
                   (percent_decode (encodeURIComponent s))).
    now rewrite percent_byte_decode, IH.
Qed.

(** X4: the path segment made of a slug holds only letters, digits, the
    marks [- _ . ! ~ * ' ( )] and percent escapes: no slash, question
    mark, hash or ampersand of the slug reaches the URL.  The encoding
    loses nothing: the slug is recovered from its segment, so two slugs
    with the same segment are the same slug. *)
Theorem slug_segment_safe slug :
  (forall c, In c (list_ascii_of_string (encodeURIComponent slug)) -> uri_safe c = true)
  /\ (forall c, In c (list_ascii_of_string "/?#&= ") ->
                ~ In c (list_ascii_of_string (encodeURIComponent slug)))
  /\ percent_decode (encodeURIComponent slug) = slug
  /\ (forall slug', encodeURIComponent slug = encodeURIComponent slug' -> slug = slug').
Proof.
  pose proof (encodeURIComponent_safe slug) as Hsafe.
  rewrite forallb_forall in Hsafe.
  repeat split.
  - exact Hsafe.
  - intros c Hc Hin. apply Hsafe in Hin.
    cbn in Hc. repeat (destruct Hc as [<-|Hc]; [discriminate Hin|]). exact Hc.
  - apply percent_decode_encode.
  - intros slug' H. rewrite <- (percent_decode_encode slug), H.
    apply percent_decode_encode.
Qed.

Lemma urlencoded_safe s :
  forallb query_safe (list_ascii_of_string (urlencoded s)) = true.
Proof.
  induction s as [|c s IH]; [reflexivity|].
  cbn [urlencoded]. rewrite list_ascii_app, forallb_app, IH, andb_true_r.
  destruct (Ascii.eqb c " "); [reflexivity|].
  destruct (is_alnum c || mem_ascii c "*-._") eqn:Hc.
  - cbn. rewrite andb_true_r. unfold query_safe.
    apply orb_true_iff in Hc. destruct Hc as [Hc|Hc].
    + now rewrite Hc.
    + apply orb_true_iff. right. unfold mem_ascii in *. cbn in *.
      repeat (apply orb_true_iff in Hc; destruct Hc as [Hc|Hc];
              [rewrite Hc; rewrite ?orb_true_r; reflexivity|]).
      discriminate.
  - apply percent_byte_query_safe.
Qed.

Lemma urlencoded_uint d :
  urlencoded (NilEmpty.string_of_uint d) = NilEmpty.string_of_uint d.
Proof.
  induction d as [|d IH|d IH|d IH|d IH|d IH|d IH|d IH|d IH|d IH|d IH];
    [reflexivity | ..];
    cbn [NilEmpty.string_of_uint urlencoded];
    rewrite IH; reflexivity.
Qed.

Lemma urlencoded_Number n : urlencoded (Number_toString n) = Number_toString n.
Proof.
  unfold Number_toString, NilZero.string_of_int, NilZero.string_of_uint.
  destruct (Z.to_int n) as [d|d]; destruct d; cbn; try reflexivity;
    rewrite urlencoded_uint; reflexivity.
Qed.

(** X5: the query of [get_leads] holds at most a [status] and a [limit]
    parameter, in that order: a status that is absent or empty and a limit
    that is absent or zero are left out, and nothing else is ever added.
    The status is escaped so that it holds no [&], [=], [?] or [#] and
    cannot add or end a parameter; the limit is written in decimal. *)
Theorem leads_query_parameters args :
  leads_query args
  = join "&"
      (List.app
         (match gl_status args with
          | Some s => if truthy_str s then ["status=" ++ urlencoded s] else []
          | None => []
          end)
         (match gl_limit args with
          | Some n => if Z.eqb n 0 then [] else ["limit=" ++ Number_toString n]
          | None => []
          end))
  /\ (forall s c, In c (list_ascii_of_string "&=?#/ ") ->
                  ~ In c (list_ascii_of_string (urlencoded s))).
Proof.
  split.
  - unfold leads_query, set_if_truthy.
    destruct (gl_status args) as [s|]; [destruct (truthy_str s)|];
      (destruct (gl_limit args) as [n|]; [destruct (Z.eqb n 0)|]); cbn;
      rewrite ?urlencoded_Number; reflexivity.
  - intros s c Hc Hin.
    pose proof (urlencoded_safe s) as Hsafe. rewrite forallb_forall in Hsafe.
    apply Hsafe in Hin.
    cbn in Hc. repeat (destruct Hc as [<-|Hc]; [discriminate Hin|]). exact Hc.
Qed.

(** ** The texts of the results *)

Lemma append_nil_r s : s ++ EmptyString = s.
Proof. induction s as [|c s IH]; cbn; [reflexivity | now rewrite IH]. Qed.

Lemma check_envelope_truthy body :
  success_truthy body = true -> check_envelope body = inr body.
Proof.
  intros H. destruct (check_envelope_cases body) as [[_ E]|[E _]]; [exact E|].
  congruence.
Qed.

Lemma apiRequest_success host method path b body tr :
  API_KEY host <> EmptyString ->
  (forall req, fetch host req = Json body) ->
  success_truthy body = true ->
  apiRequest host method path b tr
  = ((tr ++ [EvFetch (build_request host method path b)])%list, inr body).
Proof.
  intros Hkey Hfetch Hs. rewrite apiRequest_with_key by exact Hkey.
  now rewrite Hfetch, check_envelope_truthy.
Qed.

Lemma list_pages_line_PageRecord host p :
  PageRecord host p -> exists line, list_pages_line host p = inr line.
Proof.
  intros (o & -> & (s & Hs) & Hn & (st & Hst) & (c & d & Hc & Hd)).
  unfold list_pages_line, js_or. cbn. rewrite Hs, Hst, Hc. cbn. rewrite Hd. cbn.
  destruct Hn as [->|(n & ->)]; cbn.
  - eexists; reflexivity.
  - destruct (truthy_str n); cbn; eexists; reflexivity.
Qed.

Lemma map_elems_PageRecords host data :
  Forall (PageRecord host) data ->
  exists lines, map_elems (list_pages_line host) data = inr lines.
Proof.
  induction 1 as [|p data Hp _ (lines & IH)]; cbn.
  - now exists [].
  - destruct (list_pages_line_PageRecord host p Hp) as (line & ->). rewrite IH. cbn.
    eexists; reflexivity.
Qed.

Lemma list_pages_line_page_rendering host p :
  PageRecord host p ->
  exists line, list_pages_line host p = inr line /\ page_rendering host p line.
Proof.
  intros (o & -> & (s & Hs) & Hn & (st & Hst) & (c & d & Hc & Hd)).
  eexists. split.
  - unfold list_pages_line, js_or. cbn. rewrite Hs, Hst, Hc. cbn. rewrite Hd. cbn.
    instantiate (1 := "- " ++ s ++ " | "
                        ++ (if truthy_str (string_at o "businessName" EmptyString)
                            then string_at o "businessName" EmptyString
                            else "(no name)")
                        ++ " | " ++ st ++ " | " ++ d).
    unfold string_at.
    destruct Hn as [->|(n & ->)]; cbn; [reflexivity|].
    destruct (truthy_str n); reflexivity.
  - exists o, s, st, c, d. repeat split; assumption.
Qed.

Lemma map_elems_page_renderings host data :
  Forall (PageRecord host) data ->
  exists lines,
    map_elems (list_pages_line host) data = inr lines
    /\ Forall2 (page_rendering host) data lines.
Proof.
  induction 1 as [|p data Hp _ (lines & IH & Hall)]; cbn.
  - exists []. split; [reflexivity | constructor].
  - destruct (list_pages_line_page_rendering host p Hp) as (line & -> & Hline).
    rewrite IH. cbn. exists (line :: lines). split; [reflexivity|].
    now constructor.
Qed.

(** X6: when the backend answers a [list_pages] call with a success whose
    data is a non-empty array of page records, the result is one content
    item of type text whose text is the header [N page(s):], an empty
    line, and the renderings of the pages joined by line feeds, one
    rendering per page, in order, each of the form
    [- slug | name | status | date]; N, a safe integer, is the total of
    the answer when it has one and the number of pages otherwise. *)
Theorem list_pages_header_and_lines host args o data total tr :
  API_KEY host <> EmptyString ->
  (forall req, fetch host req = Json (VObj o)) ->
  lookup "success" o = Some (VBool true) ->
  lookup "data" o = Some (VArr data) ->
  lookup "total" o = option_map VNum total ->
  safe_integer (match total with
                | Some n => n
                | None => Z.of_nat (List.length data)
                end) ->
  data <> [] ->
  Forall (PageRecord host) data ->
  exists lines,
    snd (list_pages host args tr)
    = inr {| result_content :=
               [ {| item_type := "text";
                    item_text :=
                      Number_toString (match total with
                                       | Some n => n
                                       | None => Z.of_nat (List.length data)
                                       end)
                        ++ " page(s):" ++ nl ++ nl ++ join nl lines |} ] |}
    /\ Forall2 (page_rendering host) data lines
    /\ List.length lines = List.length data.
Proof.
  intros Hkey Hfetch Hs Hd Ht _ Hne Hpages.
  destruct (map_elems_page_renderings host data Hpages) as (lines & Hlines & Hall).
  exists lines. split; [|split].
  - unfold list_pages. unfold bind at 1.
    rewrite (apiRequest_success host _ _ _ (VObj o)); [|exact Hkey|exact Hfetch|].
    2:{ cbn. now rewrite Hs. }
    unfold bind, lift. cbn. rewrite Hd, Ht.
    destruct data as [|p data]; [congruence|].
    cbn [get is_zero List.length Z.of_nat Z.eqb String.eqb Ascii.eqb Bool.eqb].
    cbn [array_map]. rewrite Hlines.
    destruct total as [n|]; reflexivity.
  - exact Hall.
  - symmetry. eapply Forall2_length. exact Hall.
Qed.

Lemma list_pages_header_and_lines_witness :
  exists lines,
    snd (list_pages
           (stub_host (Some "p4u_key")
              (Json (VObj [("success", VBool true);
                           ("data", VArr [VObj [("slug", VStr "my-bakery");
                                                ("status", VStr "published");
                                                ("createdAt", VStr "2025-01-02")]])])))
           {| lp_status := None |} [])
    = inr {| result_content :=
               [ {| item_type := "text";
                    item_text := "1" ++ " page(s):" ++ nl ++ nl ++ join nl lines |} ] |}
    /\ List.length lines = 1%nat.
Proof.
  destruct (list_pages_header_and_lines
              (stub_host (Some "p4u_key")
                 (Json (VObj [("success", VBool true);
                              ("data", VArr [VObj [("slug", VStr "my-bakery");
                                                   ("status", VStr "published");
                                                   ("createdAt", VStr "2025-01-02")]])])))
              {| lp_status := None |}
              [("success", VBool true);
               ("data", VArr [VObj [("slug", VStr "my-bakery");
                                    ("status", VStr "published");
                                    ("createdAt", VStr "2025-01-02")]])]
              [VObj [("slug", VStr "my-bakery"); ("status", VStr "published");
                     ("createdAt", VStr "2025-01-02")]]
              None [])
    as (lines & Htext & _ & Hlen).
  - discriminate.
  - reflexivity.
  - reflexivity.
  - reflexivity.
  - reflexivity.
  - split; reflexivity.
  - discriminate.
  - repeat constructor. eexists. split; [reflexivity|].
    unfold optional_string. cbn. repeat split; eauto.
  - exists lines. split; [exact Htext | exact Hlen].
Defined.

(** X7: a page record is rendered as [- slug | name | status | date]; a
    business name that is absent or empty is rendered as [(no name)]. *)
Theorem list_pages_line_render host o slug status created date :
  lookup "slug" o = Some (VStr slug) ->
  lookup "status" o = Some (VStr status) ->
  lookup "createdAt" o = Some (VStr created) ->
  Date_toLocaleDateString host (VStr created) = inr date ->
  optional_string o "businessName" ->
  list_pages_line host (VObj o)
  = inr ("- " ++ slug ++ " | "
           ++ (if truthy_str (string_at o "businessName" EmptyString)
               then string_at o "businessName" EmptyString
               else "(no name)")
           ++ " | " ++ status ++ " | " ++ date).
Proof.
  intros Hs Hst Hc Hd Hn.
  unfold list_pages_line, string_at, js_or. cbn. rewrite Hs, Hst, Hc. cbn. rewrite Hd. cbn.
  destruct Hn as [->|(n & ->)]; cbn; [reflexivity|].
  destruct (truthy_str n); reflexivity.
Qed.

Lemma list_pages_line_render_witness :
  list_pages_line (stub_host None Unreachable)
    (VObj [("slug", VStr "my-bakery"); ("businessName", VStr EmptyString);
           ("status", VStr "draft"); ("createdAt", VStr "2025-01-02")])
  = inr "- my-bakery | (no name) | draft | 1/2/2025".
Proof.
  apply (list_pages_line_render (stub_host None Unreachable)
           [("slug", VStr "my-bakery"); ("businessName", VStr EmptyString);
            ("status", VStr "draft"); ("createdAt", VStr "2025-01-02")]
           "my-bakery" "draft" "2025-01-02" "1/2/2025"); try reflexivity.
  right. now exists EmptyString.
Defined.

Lemma push_if_truthy_optional_part label o k parts :
  optional_string o k ->
  push_if_truthy label (VObj o) k parts = inr (parts ++ optional_part label o k)%list.
Proof.
  unfold push_if_truthy, optional_part. cbn. intros [->|(s & ->)]; cbn.
  - now rewrite app_nil_r.
  - destruct (truthy_str s); [reflexivity | now rewrite app_nil_r].
Qed.

(** X8: a lead is rendered as its parts joined by [ | ]: the name, the
    phone, the email and the message, each left out when absent or empty,
    then always the status and the date, in that order. *)
Theorem leads_line_render host o status created date :
  optional_string o "name" -> optional_string o "phone" ->
  optional_string o "email" -> optional_string o "message" ->
  lookup "status" o = Some (VStr status) ->
  lookup "createdAt" o = Some (VStr created) ->
  Date_toLocaleDateString host (VStr created) = inr date ->
  leads_line host (VObj o)
  = inr (join " | "
           (List.app (optional_part "Name" o "name")
              (List.app (optional_part "Phone" o "phone")
                 (List.app (optional_part "Email" o "email")
                    (List.app (optional_part "Message" o "message")
                       ["Status: " ++ status; "Date: " ++ date]))))).
Proof.
  intros Hn Hp He Hm Hs Hc Hd. unfold leads_line.
  rewrite (push_if_truthy_optional_part "Name" o "name" [] Hn). cbn [rbind].
  rewrite (push_if_truthy_optional_part "Phone" o "phone" _ Hp). cbn [rbind].
  rewrite (push_if_truthy_optional_part "Email" o "email" _ He). cbn [rbind].
  rewrite (push_if_truthy_optional_part "Message" o "message" _ Hm). cbn [rbind].
  cbn [get]. rewrite Hs, Hc. cbn [rbind ToString]. rewrite Hd. cbn [rbind].
  unfold push. rewrite <- !app_assoc. reflexivity.
Qed.

Lemma leads_line_render_witness :
  leads_line (stub_host None Unreachable)
    (VObj [("name", VStr "Dana"); ("phone", VStr EmptyString);
           ("status", VStr "new"); ("createdAt", VStr "2025-01-02")])
  = inr "Name: Dana | Status: new | Date: 1/2/2025".
Proof.
  apply (leads_line_render (stub_host None Unreachable)
           [("name", VStr "Dana"); ("phone", VStr EmptyString);
            ("status", VStr "new"); ("createdAt", VStr "2025-01-02")]
           "new" "2025-01-02" "1/2/2025"); try reflexivity.
  - right. now exists "Dana".
  - right. now exists EmptyString.
  - now left.
  - now left.
Defined.

Lemma map_elems_strings (f : string -> string) ws :
  map_elems (fun w => rbind (ToString w) (fun w_s => inr (f w_s))) (map VStr ws)
  = inr (map f ws).
Proof. induction ws as [|w ws IH]; cbn; [reflexivity | now rewrite IH]. Qed.

Lemma array_join_strings sep ws :
  array_join (VArr (map VStr ws)) sep = inr (join sep ws).
Proof.
  unfold array_join.
  assert (H : map_elems (fun x => if is_nullish x then inr EmptyString else ToString x)
                        (map VStr ws) = inr ws).
  { induction ws as [|w ws IH]; cbn; [reflexivity | now rewrite IH]. }
  now rewrite H.
Qed.

Lemma deploy_text_render assets d url slug warnings :
  lookup "url" d = Some (VStr url) ->
  lookup "slug" d = Some (VStr slug) ->
  optional_string d "businessName" ->
  lookup "warnings" d = option_map (fun ws => VArr (map VStr ws)) warnings ->
  deploy_text assets (VObj d)
  = inr (((("Page deployed!" ++ nl ++ nl ++ "URL: " ++ url ++ nl ++ "Slug: " ++ slug)
             ++ name_line d) ++ assets_line assets) ++ warnings_block warnings).
Proof.
  intros Hu Hs Hn Hw. unfold deploy_text, name_line. cbn [get rbind].
  rewrite Hu, Hs, Hw. cbn [rbind ToString].
  set (base := "Page deployed!" ++ nl ++ nl ++ "URL: " ++ url ++ nl ++ "Slug: " ++ slug).
  assert (Hname :
            (if truthy match lookup "businessName" d with
                       | Some x => x | None => VUndefined end
             then rbind (ToString match lookup "businessName" d with
                                  | Some x => x | None => VUndefined end)
                        (fun name_s => inr (base ++ nl ++ "Name: " ++ name_s))
             else inr base)
            = (inr (base ++ match lookup "businessName" d with
                            | Some (VStr n) =>
                                if truthy_str n then nl ++ "Name: " ++ n else EmptyString
                            | _ => EmptyString
                            end) : result string)).
  { destruct Hn as [->|(n & ->)]; cbn; [now rewrite append_nil_r|].
    destruct (truthy_str n); [reflexivity | now rewrite append_nil_r]. }
  rewrite Hname. cbn [rbind]. clear Hname.
  set (r1 := base ++ _).
  assert (Hassets :
            match assets with
            | Some (a :: l) =>
                r1 ++ nl ++ "Assets: "
                   ++ Number_toString (Z.of_nat (List.length (a :: l)))
                   ++ " file(s) included"
            | _ => r1
            end = r1 ++ assets_line assets).
  { unfold assets_line. destruct assets as [[|a l]|]; try reflexivity;
      now rewrite append_nil_r. }
  rewrite Hassets. clear Hassets. set (r2 := r1 ++ assets_line assets).
  destruct warnings as [[|w ws]|]; cbn [option_map map is_nullish get rbind truthy
                                        List.length Z.of_nat String.eqb Ascii.eqb Bool.eqb
                                        Z.eqb negb warnings_block].
  - now rewrite append_nil_r.
  - change (VStr w :: map VStr ws) with (map VStr (w :: ws)).
    unfold array_map. rewrite (map_elems_strings (fun w_s => "- " ++ w_s)).
    reflexivity.
  - now rewrite append_nil_r.
Qed.

(** X9: when the backend answers a [deploy_page] call with a success whose
    data holds the URL and the slug, the result is one content item of
    type text whose text is [Page deployed!], the URL
    and the slug, then the business name when it is given and not empty,
    then the number of assets when the call had some, then the warnings,
    one per line, when the answer has some: a warning is never dropped. *)
Theorem deploy_page_success_text host args o d url slug warnings tr :
  API_KEY host <> EmptyString ->
  (forall req, fetch host req = Json (VObj o)) ->
  lookup "success" o = Some (VBool true) ->
  lookup "data" o = Some (VObj d) ->
  lookup "url" d = Some (VStr url) ->
  lookup "slug" d = Some (VStr slug) ->
  optional_string d "businessName" ->
  lookup "warnings" d = option_map (fun ws => VArr (map VStr ws)) warnings ->
  snd (deploy_page host args tr)
  = inr {| result_content :=
             [ {| item_type := "text";
                  item_text :=
                    ((("Page deployed!" ++ nl ++ nl ++ "URL: " ++ url ++ nl
                         ++ "Slug: " ++ slug)
                        ++ name_line d) ++ assets_line (dp_assets args))
                      ++ warnings_block warnings |} ] |}.
Proof.
  intros Hkey Hfetch Hs Hd Hu Hsl Hn Hw.
  unfold deploy_page. unfold bind at 1. rewrite deploy_form_run.
  unfold bind at 1.
  rewrite (apiRequest_success host _ _ _ (VObj o)); [|exact Hkey|exact Hfetch|].
  2:{ cbn. now rewrite Hs. }
  unfold bind, lift, ret. cbn [get]. rewrite Hd.
  rewrite (deploy_text_render _ d url slug warnings); auto.
Qed.

Lemma deploy_page_success_text_witness :
  snd (deploy_page
         (stub_host (Some "p4u_key")
            (Json (VObj [("success", VBool true);
                         ("data", VObj [("url", VStr "https://page4u.ai/p/my-bakery");
                                        ("slug", VStr "my-bakery");
                                        ("warnings", VArr [VStr "Image too large"])])])))
         html_only [])
  = inr {| result_content :=
             [ {| item_type := "text";
                  item_text :=
                    "Page deployed!" ++ nl ++ nl ++ "URL: https://page4u.ai/p/my-bakery"
                      ++ nl ++ "Slug: my-bakery" ++ nl ++ nl ++ "Warnings:" ++ nl
                      ++ "- Image too large" |} ] |}.
Proof.
  apply (deploy_page_success_text
           (stub_host (Some "p4u_key")
              (Json (VObj [("success", VBool true);
                           ("data", VObj [("url", VStr "https://page4u.ai/p/my-bakery");
                                          ("slug", VStr "my-bakery");
                                          ("warnings", VArr [VStr "Image too large"])])])))
           html_only
           [("success", VBool true);
            ("data", VObj [("url", VStr "https://page4u.ai/p/my-bakery");
                           ("slug", VStr "my-bakery");
                           ("warnings", VArr [VStr "Image too large"])])]
           [("url", VStr "https://page4u.ai/p/my-bakery"); ("slug", VStr "my-bakery");
            ("warnings", VArr [VStr "Image too large"])]
           "https://page4u.ai/p/my-bakery" "my-bakery" (Some ["Image too large"]) []);
    try reflexivity.
  - discriminate.
  - now left.
Defined.

(** X10: when the backend answers an [update_page] call with a success,
    the result is one content item of type text whose text names the slug and the changed fields that the answer
    carries, the fields joined by a comma and a space. *)
Theorem update_page_success_text host args o d slug updated tr :
  API_KEY host <> EmptyString ->
  (forall req, fetch host req = Json (VObj o)) ->
  provided (up_fields args) <> [] ->
  lookup "success" o = Some (VBool true) ->
  lookup "data" o = Some (VObj d) ->
  lookup "slug" d = Some (VStr slug) ->
  lookup "updated" d = Some (VArr (map VStr updated)) ->
  snd (update_page host args tr)
  = inr {| result_content :=
             [ {| item_type := "text";
                  item_text := "Page " ++ dq ++ slug ++ dq ++ " updated. Fields changed: "
                                 ++ join ", " updated |} ] |}.
Proof.
  intros Hkey Hfetch Hsome Hs Hd Hsl Hu.
  unfold update_page. rewrite defined_fields_provided.
  destruct (provided (up_fields args)) as [|kv body]; [congruence|].
  unfold bind at 1.
  rewrite (apiRequest_success host _ _ _ (VObj o)); [|exact Hkey|exact Hfetch|].
  2:{ cbn. now rewrite Hs. }
  unfold bind, lift, ret. cbn [get]. rewrite Hd. cbn [get]. rewrite Hsl, Hu.
  cbn [ToString]. rewrite array_join_strings. reflexivity.
Qed.

Lemma update_page_success_text_witness :
  snd (update_page
         (stub_host (Some "p4u_key")
            (Json (VObj [("success", VBool true);
                         ("data", VObj [("slug", VStr "my-bakery");
                                        ("updated", VArr [VStr "headline"; VStr "phone"])])])))
         headline_and_phone [])
  = inr {| result_content :=
             [ {| item_type := "text";
                  item_text := "Page " ++ dq ++ "my-bakery" ++ dq
                                 ++ " updated. Fields changed: headline, phone" |} ] |}.
Proof.
  apply (update_page_success_text
           (stub_host (Some "p4u_key")
              (Json (VObj [("success", VBool true);
                           ("data", VObj [("slug", VStr "my-bakery");
                                          ("updated",
                                           VArr [VStr "headline"; VStr "phone"])])])))
           headline_and_phone
           [("success", VBool true);
            ("data", VObj [("slug", VStr "my-bakery");
                           ("updated", VArr [VStr "headline"; VStr "phone"])])]
           [("slug", VStr "my-bakery"); ("updated", VArr [VStr "headline"; VStr "phone"])]
           "my-bakery" ["headline"; "phone"] []); try reflexivity; discriminate.
Defined.

(** X11: [delete_page] confirms with the slug of the call: once the
    backend answers with a body whose [success] is truthy, the result is
    one content item of type text whose text is [Page "<slug>" deleted.],
    whatever else the body holds; and when that body has a [data], the
    text of [get_page] is that data pretty-printed. *)
Theorem delete_page_confirms_input_slug host slug body tr :
  API_KEY host <> EmptyString ->
  (forall req, fetch host req = Json body) ->
  success_truthy body = true ->
  snd (delete_page host slug tr)
  = inr {| result_content :=
             [ {| item_type := "text";
                  item_text := "Page " ++ dq ++ slug ++ dq ++ " deleted." |} ] |}
  /\ (forall o d,
        body = VObj o -> lookup "data" o = Some d -> d <> VUndefined ->
        snd (get_page host slug tr)
        = inr {| result_content :=
                   [ {| item_type := "text";
                        item_text := JSON_stringify_pretty host d |} ] |}).
Proof.
  intros Hkey Hfetch Hs. split.
  - unfold delete_page. unfold bind at 1.
    now rewrite (apiRequest_success host _ _ _ body).
  - intros o d -> Hd _.
    unfold get_page. unfold bind at 1.
    rewrite (apiRequest_success host _ _ _ (VObj o)) by assumption.
    unfold bind, lift, ret. cbn. now rewrite Hd.
Qed.

Lemma delete_page_confirms_input_slug_witness :
  snd (delete_page (stub_host (Some "p4u_key") (Json (VObj empty_success))) "my-bakery" [])
  = inr {| result_content :=
             [ {| item_type := "text";
                  item_text := "Page " ++ dq ++ "my-bakery" ++ dq ++ " deleted." |} ] |}
  /\ snd (get_page (stub_host (Some "p4u_key") (Json (VObj empty_success))) "my-bakery" [])
     = inr {| result_content := [ {| item_type := "text"; item_text := "{}" |} ] |}.
Proof.
  pose proof (delete_page_confirms_input_slug
                (stub_host (Some "p4u_key") (Json (VObj empty_success))) "my-bakery"
                (VObj empty_success) [] ltac:(discriminate) ltac:(reflexivity) eq_refl)
    as [Hdelete Hget].
  split; [exact Hdelete|].
  apply (Hget empty_success (VArr []) eq_refl eq_refl). discriminate.
Defined.

(** ** Analytics *)

Lemma counter_rendered host d k :
  (exists v s, lookup k d = Some v /\ is_nullish v = false
               /\ toLocaleString host v = inr s) ->
  counter host (VObj d) k = inr (rendered host d k).
Proof.
  intros (v & s & Hv & Hn & Hs). unfold counter, rendered. cbn.
  now rewrite Hv, Hn, Hs.
Qed.

(** X12: when the backend answers a [get_analytics] call with a snapshot
    that holds its period and its seven counters, the result is one
    content item of type text whose text is the header
    [Analytics for "<slug>" (<period>):], an empty line and the seven
    counters in their fixed order, each as the host renders it; the
    period is the label of the snapshot, or [<from> to <to>] when the
    snapshot gives a range. *)
Theorem get_analytics_text host args o d p tr :
  API_KEY host <> EmptyString ->
  (forall req, fetch host req = Json (VObj o)) ->
  lookup "success" o = Some (VBool true) ->
  lookup "data" o = Some (VObj d) ->
  Period d p ->
  (forall k, In k counters ->
             exists v s, lookup k d = Some v /\ is_nullish v = false
                         /\ toLocaleString host v = inr s) ->
  snd (get_analytics host args tr)
  = inr {| result_content :=
             [ {| item_type := "text";
                  item_text :=
                    ("Analytics for " ++ dq ++ ga_slug args ++ dq ++ " (" ++ p ++ "):")
                      ++ nl ++ nl
                      ++ "Total Events:     " ++ rendered host d "totalEvents" ++ nl
                      ++ "Page Views:       " ++ rendered host d "page_view" ++ nl
                      ++ "Button Clicks:    " ++ rendered host d "button_click" ++ nl
                      ++ "WhatsApp Clicks:  " ++ rendered host d "whatsapp_click" ++ nl
                      ++ "Phone Clicks:     " ++ rendered host d "phone_click" ++ nl
                      ++ "Email Clicks:     " ++ rendered host d "email_click" ++ nl
                      ++ "Form Submits:     " ++ rendered host d "form_submit" |} ] |}.
Proof.
  intros Hkey Hfetch Hs Hd Hp Hc.
  unfold get_analytics. unfold bind at 1.
  rewrite (apiRequest_success host _ _ _ (VObj o)); [|exact Hkey|exact Hfetch|].
  2:{ cbn. now rewrite Hs. }
  unfold bind, lift, ret. cbn [get]. rewrite Hd.
  unfold analytics_text. cbn [rbind get].
  destruct Hp as [H|(r & from & to & H & Hf & Ht & ->)]; rewrite H; cbn [rbind get];
    [|rewrite Hf, Ht; cbn [rbind ToString]];
    rewrite !counter_rendered by (apply Hc; cbn; tauto);
    reflexivity.
Qed.

Lemma get_analytics_text_witness :
  snd (get_analytics
         (stub_host (Some "p4u_key")
            (Json (VObj [("success", VBool true);
                         ("data", VObj [("period", VStr "all-time");
                                        ("totalEvents", VNum 12); ("page_view", VNum 7);
                                        ("button_click", VNum 1); ("whatsapp_click", VNum 1);
                                        ("phone_click", VNum 1); ("email_click", VNum 1);
                                        ("form_submit", VNum 1)])])))
         {| ga_slug := "my-bakery"; ga_from := None; ga_to := None |} [])
  = inr {| result_content :=
             [ {| item_type := "text";
                  item_text :=
                    "Analytics for " ++ dq ++ "my-bakery" ++ dq ++ " (all-time):"
                      ++ nl ++ nl
                      ++ "Total Events:     12" ++ nl ++ "Page Views:       7" ++ nl
                      ++ "Button Clicks:    1" ++ nl ++ "WhatsApp Clicks:  1" ++ nl
                      ++ "Phone Clicks:     1" ++ nl ++ "Email Clicks:     1" ++ nl
                      ++ "Form Submits:     1" |} ] |}.
Proof.
  apply (get_analytics_text
           (stub_host (Some "p4u_key")
              (Json (VObj [("success", VBool true);
                           ("data", VObj [("period", VStr "all-time");
                                          ("totalEvents", VNum 12); ("page_view", VNum 7);
                                          ("button_click", VNum 1);
                                          ("whatsapp_click", VNum 1);
                                          ("phone_click", VNum 1); ("email_click", VNum 1);
                                          ("form_submit", VNum 1)])])))
           {| ga_slug := "my-bakery"; ga_from := None; ga_to := None |}
           [("success", VBool true);
            ("data", VObj [("period", VStr "all-time");
                           ("totalEvents", VNum 12); ("page_view", VNum 7);
                           ("button_click", VNum 1); ("whatsapp_click", VNum 1);
                           ("phone_click", VNum 1); ("email_click", VNum 1);
                           ("form_submit", VNum 1)])]
           [("period", VStr "all-time");
            ("totalEvents", VNum 12); ("page_view", VNum 7);
            ("button_click", VNum 1); ("whatsapp_click", VNum 1);
            ("phone_click", VNum 1); ("email_click", VNum 1);
            ("form_submit", VNum 1)]
           "all-time" []); try reflexivity.
  - discriminate.
  - now left.
  - intros k Hk. cbn in Hk.
    repeat (destruct Hk as [<-|Hk]; [do 2 eexists; repeat split; reflexivity|]).
    destruct Hk.
Defined.

(** X13: a snapshot that lacks one of its seven counters, or holds null
    for it, makes [get_analytics] end with the TypeError of the runtime
    (the only exception the rendering of a counter raises): no text is
    produced, not even for the counters that are there. *)
Theorem get_analytics_missing_counter host args o d p k tr :
  API_KEY host <> EmptyString ->
  (forall req, fetch host req = Json (VObj o)) ->
  lookup "success" o = Some (VBool true) ->
  lookup "data" o = Some (VObj d) ->
  Period d p ->
  (forall v e, toLocaleString host v = inl e -> e = TypeError) ->
  In k counters ->
  lookup k d = None \/ lookup k d = Some VNull ->
  snd (get_analytics host args tr) = inl TypeError.
Proof.
  intros Hkey Hfetch Hs Hd Hp Hhost Hin Hk.
  assert (Hall : forall k', counter host (VObj d) k' = inl TypeError
                            \/ exists s, counter host (VObj d) k' = inr s).
  { intros k'. unfold counter. cbn.
    destruct (is_nullish _); [now left|].
    destruct (toLocaleString host _) as [e|s] eqn:E.
    - left. now rewrite (Hhost _ _ E).
    - right. now exists s. }
  assert (Hmiss : counter host (VObj d) k = inl TypeError).
  { unfold counter. cbn. destruct Hk as [->| ->]; reflexivity. }
  unfold get_analytics. unfold bind at 1.
  rewrite (apiRequest_success host _ _ _ (VObj o)); [|exact Hkey|exact Hfetch|].
  2:{ cbn. now rewrite Hs. }
  unfold bind, lift, ret. cbn [get]. rewrite Hd.
  unfold analytics_text. cbn [rbind get].
  destruct Hp as [H|(r & from & to & H & Hf & Ht & ->)]; rewrite H; cbn [rbind get];
    [|rewrite Hf, Ht; cbn [rbind ToString]].
  all: destruct (Hall "totalEvents") as [E1|(s1 & E1)]; rewrite E1; cbn [rbind];
    [reflexivity|].
  all: destruct (Hall "page_view") as [E2|(s2 & E2)]; rewrite E2; cbn [rbind];
    [reflexivity|].
  all: destruct (Hall "button_click") as [E3|(s3 & E3)]; rewrite E3; cbn [rbind];
    [reflexivity|].
  all: destruct (Hall "whatsapp_click") as [E4|(s4 & E4)]; rewrite E4; cbn [rbind];
    [reflexivity|].
  all: destruct (Hall "phone_click") as [E5|(s5 & E5)]; rewrite E5; cbn [rbind];
    [reflexivity|].
  all: destruct (Hall "email_click") as [E6|(s6 & E6)]; rewrite E6; cbn [rbind];
    [reflexivity|].
  all: destruct (Hall "form_submit") as [E7|(s7 & E7)]; rewrite E7; cbn [rbind];
    [reflexivity|].
  all: exfalso; cbn in Hin;
    repeat (destruct Hin as [<-|Hin]; [congruence|]); exact Hin.
Qed.

Lemma get_analytics_missing_counter_witness :
  snd (get_analytics
         (stub_host (Some "p4u_key")
            (Json (VObj [("success", VBool true);
                         ("data", VObj [("period", VStr "all-time");
                                        ("totalEvents", VNum 12)])])))
         {| ga_slug := "my-bakery"; ga_from := None; ga_to := None |} [])
  = inl TypeError.
Proof.
  apply (get_analytics_missing_counter
           (stub_host (Some "p4u_key")
              (Json (VObj [("success", VBool true);
                           ("data", VObj [("period", VStr "all-time");
                                          ("totalEvents", VNum 12)])])))
           {| ga_slug := "my-bakery"; ga_from := None; ga_to := None |}
           [("success", VBool true);
            ("data", VObj [("period", VStr "all-time"); ("totalEvents", VNum 12)])]
           [("period", VStr "all-time"); ("totalEvents", VNum 12)]
           "all-time" "page_view" []); try reflexivity.
  - discriminate.
  - now left.
  - intros v e. apply ToString_inl.
  - cbn. tauto.
  - now left.
Defined.

(** ** Failures below the envelope *)

(** X14: with a credential, when the network call of an operation fails
    the operation ends with the network error, and when the answer is not
    JSON it ends with the syntax error of the parser; in both cases the
    one request was made, nothing is retried and no text is produced. *)
Theorem transport_failures_propagate host op tr :
  API_KEY host <> EmptyString ->
  reaches_transport op = true ->
  ((forall req, fetch host req = Unreachable) ->
   snd (handler host op tr) = inl NetworkError
   /\ network_calls (fst (handler host op tr)) = S (network_calls tr))
  /\ ((forall req, fetch host req = NotJson) ->
      snd (handler host op tr) = inl SyntaxError
      /\ network_calls (fst (handler host op tr)) = S (network_calls tr)).
Proof.
  intros Hkey Hreach. split; intros Hfetch.
  - destruct (handler_propagates host op NetworkError
                (fun m p b => [EvFetch (build_request host m p b)]) tr Hreach)
      as (m & p & b & H).
    + intros method path b tr0. rewrite apiRequest_with_key by exact Hkey.
      now rewrite Hfetch.
    + rewrite H. cbn [fst snd]. split; [reflexivity|].
      rewrite !network_calls_app, bundling_no_fetch. cbn. lia.
  - destruct (handler_propagates host op SyntaxError
                (fun m p b => [EvFetch (build_request host m p b)]) tr Hreach)
      as (m & p & b & H).
    + intros method path b tr0. rewrite apiRequest_with_key by exact Hkey.
      now rewrite Hfetch.
    + rewrite H. cbn [fst snd]. split; [reflexivity|].
      rewrite !network_calls_app, bundling_no_fetch. cbn. lia.
Qed.

Lemma transport_failures_propagate_witness :
  snd (handler (stub_host (Some "p4u_key") Unreachable)
         (Op_list_pages {| lp_status := Some published |}) [])
  = inl NetworkError.
Proof.
  apply (proj1 (transport_failures_propagate
                  (stub_host (Some "p4u_key") Unreachable)
                  (Op_list_pages {| lp_status := Some published |}) []
                  ltac:(discriminate) eq_refl)).
  reflexivity.
Defined.

(** X15: a body whose [success] is truthy but whose [data] is absent or
    null is taken for a success by the transport, and every operation
    that reads the data ([list_pages], [deploy_page], [update_page],
    [get_leads], [get_analytics]) then ends with the TypeError of the
    runtime instead of a text. *)
Theorem success_without_data host op o tr :
  API_KEY host <> EmptyString ->
  reaches_transport op = true ->
  reads_data op = true ->
  (forall req, fetch host req = Json (VObj o)) ->
  success_truthy (VObj o) = true ->
  lookup "data" o = None \/ lookup "data" o = Some VNull ->
  snd (handler host op tr) = inl TypeError.
Proof.
  intros Hkey Hreach Hreads Hfetch Hs Hd.
  assert (Hget : get (VObj o) "data" = inr VUndefined \/ get (VObj o) "data" = inr VNull).
  { cbn. destruct Hd as [->| ->]; auto. }
  destruct op as [args|slug|args|args|slug|args|args]; try discriminate; cbn [handler].
  - unfold list_pages. unfold bind at 1.
    rewrite (apiRequest_success host _ _ _ (VObj o)) by assumption.
    unfold bind, lift, ret. destruct Hget as [-> | ->]; reflexivity.
  - unfold deploy_page. unfold bind at 1. rewrite deploy_form_run. unfold bind at 1.
    rewrite (apiRequest_success host _ _ _ (VObj o)) by assumption.
    unfold bind, lift, ret. destruct Hget as [-> | ->]; reflexivity.
  - destruct (provided_nonempty args Hreach) as (kv & body & Hbody).
    unfold update_page. rewrite Hbody. unfold bind at 1.
    rewrite (apiRequest_success host _ _ _ (VObj o)) by assumption.
    unfold bind, lift, ret. destruct Hget as [-> | ->]; reflexivity.
  - unfold get_leads. unfold bind at 1.
    rewrite (apiRequest_success host _ _ _ (VObj o)) by assumption.
    unfold bind, lift, ret. destruct Hget as [-> | ->]; reflexivity.
  - unfold get_analytics. unfold bind at 1.
    rewrite (apiRequest_success host _ _ _ (VObj o)) by assumption.
    unfold bind, lift, ret. destruct Hget as [-> | ->]; reflexivity.
Qed.

Lemma success_without_data_witness :
  snd (handler (stub_host (Some "p4u_key") (Json (VObj [("success", VBool true)])))
         (Op_get_leads my_bakery_leads) [])
  = inl TypeError.
Proof.
  apply (success_without_data
           (stub_host (Some "p4u_key") (Json (VObj [("success", VBool true)])))
           (Op_get_leads my_bakery_leads) [("success", VBool true)] []);
    try reflexivity.
  - discriminate.
  - now left.
Defined.

(** X16: [apiRequest] returns a body only when a credential is set, the
    backend answered that very body, and the body is an object whose
    [success] is truthy: it never returns a body it altered, nor one whose
    [success] is false, absent or otherwise falsy. *)
Theorem apiRequest_returns_only_successes host method path b tr v :
  snd (apiRequest host method path b tr) = inr v ->
  API_KEY host <> EmptyString
  /\ fetch host (build_request host method path b) = Json v
  /\ success_truthy v = true
  /\ exists o, v = VObj o.
Proof.
  intros H.
  destruct (string_dec (API_KEY host) EmptyString) as [Hkey|Hkey].
  { rewrite apiRequest_no_key in H by exact Hkey. discriminate. }
  rewrite apiRequest_with_key in H by exact Hkey. cbn [snd] in H.
  destruct (fetch host _) as [| |body]; try discriminate.
  destruct (check_envelope_cases body) as [[Hs E]|[_ [E|(c & m & E)]]];
    rewrite E in H; try discriminate.
  inversion H; subst v. repeat split; auto.
  destruct body as [| | | | | |o]; try discriminate. now exists o.
Qed.

Lemma apiRequest_returns_only_successes_witness :
  fetch (stub_host (Some "p4u_key") (Json yes_body))
        (build_request (stub_host (Some "p4u_key") (Json yes_body)) "GET" "/pages" None)
  = Json yes_body.
Proof.
  apply (apiRequest_returns_only_successes
           (stub_host (Some "p4u_key") (Json yes_body)) "GET" "/pages" None [] yes_body).
  reflexivity.
Defined.

(** ** The shape of a result *)

Ltac split_outcome H :=
  repeat match type of H with
         | context [match ?x with _ => _ end] =>
             match type of x with
             | prod _ _ => destruct x
             | result _ => destruct x
             | sum _ _ => destruct x
             | bool => destruct x
             | list _ => destruct x
             | option _ => destruct x
             end; cbn [snd] in H
         | context [if ?x then _ else _] => destruct x; cbn [snd] in H
         end.

(** X17: whatever the backend answers, an operation that returns a result
    returns a single content item of type text: there is no other way for
    a handler to end than with such a text or with an exception. *)
Theorem results_are_single_texts host op tr r :
  snd (handler host op tr) = inr r ->
  exists text, r = textResult text
               /\ result_content r = [{| item_type := "text"; item_text := text |}].
Proof.
  intros H.
  assert (Hr : exists text, r = textResult text).
  { destruct op as [args|slug|args|args|slug|args|args]; cbn [handler] in H.
    - unfold list_pages, bind, lift, ret in H. split_outcome H;
        try discriminate; inversion H; eexists; reflexivity.
    - unfold get_page, bind, lift, ret in H. split_outcome H;
        try discriminate; inversion H; eexists; reflexivity.
    - unfold deploy_page in H. unfold bind at 1 in H. rewrite deploy_form_run in H.
      unfold bind, lift, ret in H. split_outcome H;
        try discriminate; inversion H; eexists; reflexivity.
    - unfold update_page, bind, lift, ret in H. split_outcome H;
        try discriminate; inversion H; eexists; reflexivity.
    - unfold delete_page, bind, lift, ret in H. split_outcome H;
        try discriminate; inversion H; eexists; reflexivity.
    - unfold get_leads, bind, lift, ret in H. split_outcome H;
        try discriminate; inversion H; eexists; reflexivity.
    - unfold get_analytics, bind, lift, ret in H. split_outcome H;
        try discriminate; inversion H; eexists; reflexivity. }
  destruct Hr as (text & ->). exists text. split; reflexivity.
Qed.

Lemma results_are_single_texts_witness :
  exists text,
    textResult "No fields to update." = textResult text
    /\ result_content (textResult "No fields to update.")
       = [{| item_type := "text"; item_text := text |}].
Proof.
  apply (results_are_single_texts (stub_host None Unreachable)
           (Op_update_page {| up_slug := "my-bakery"; up_fields := no_fields |}) []).
  reflexivity.
Defined.

(** ** The archive and the form *)






(** X19: the form of a [deploy_page] call starts with its one [file]
    part, the HTML document or the archive; the other parts are text
    parts named [slug], [locale] or [whatsapp], at most one of each and in
    this order, and never an empty one. *)
Theorem deploy_form_parts args tr :
  exists file rest,
    snd (deploy_form args tr) = inr (("file", file) :: rest)
    /\ (exists blob name,
          file = FormFile blob name
          /\ ((name = "index.html" /\ blob_type blob = "text/html")
              \/ (name = "site.zip" /\ blob_type blob = "application/zip")))
    /\ (forall n v, In (n, v) rest ->
          exists s, v = FormString s /\ s <> EmptyString
                    /\ In n ["slug"; "locale"; "whatsapp"])
    /\ NoDup (map fst (("file", file) :: rest))
    /\ rest
       = (match dp_slug args with
          | Some s => if truthy_str s then [("slug", FormString s)] else []
          | None => []
          end
          ++ match dp_locale args with
             | Some l => [("locale", FormString (Locale_string l))]
             | None => []
             end
          ++ match dp_whatsapp args with
             | Some s => if truthy_str s then [("whatsapp", FormString s)] else []
             | None => []
             end)%list.
Proof.
  rewrite deploy_form_run. cbn [snd]. unfold deploy_payload, optional_fields.
  set (file := match dp_assets args with
               | Some (a :: l) => zip_file (bundle (dp_html args) (a :: l))
               | _ => html_file (dp_html args)
               end).
  assert (Hfile : exists blob name,
             file = FormFile blob name
             /\ ((name = "index.html" /\ blob_type blob = "text/html")
                 \/ (name = "site.zip" /\ blob_type blob = "application/zip"))).
  { subst file. destruct (dp_assets args) as [[|a l]|];
      unfold html_file, zip_file; do 2 eexists; (split; [reflexivity|]); cbn; auto. }
  exists file.
  assert (Hsame : match dp_assets args with
                  | Some (a :: l) =>
                      append_if_truthy "whatsapp" (dp_whatsapp args)
                        (append_if_truthy "locale" (option_map Locale_string (dp_locale args))
                           (append_if_truthy "slug" (dp_slug args)
                              [("file", zip_file (bundle (dp_html args) (a :: l)))]))
                  | _ =>
                      append_if_truthy "whatsapp" (dp_whatsapp args)
                        (append_if_truthy "locale" (option_map Locale_string (dp_locale args))
                           (append_if_truthy "slug" (dp_slug args)
                              [("file", html_file (dp_html args))]))
                  end
                  = append_if_truthy "whatsapp" (dp_whatsapp args)
                      (append_if_truthy "locale" (option_map Locale_string (dp_locale args))
                         (append_if_truthy "slug" (dp_slug args) [("file", file)]))).
  { subst file. destruct (dp_assets args) as [[|a l]|]; reflexivity. }
  rewrite Hsame. clear Hsame. clearbody file.
  unfold append_if_truthy, FormData_append.
  destruct (dp_slug args) as [s|]; [destruct (truthy_str s) eqn:Hs|];
    (destruct (dp_locale args) as [[]|]);
    (destruct (dp_whatsapp args) as [w|]; [destruct (truthy_str w) eqn:Hw|]);
    cbn; eexists; (split; [reflexivity|]); (split; [exact Hfile|]);
    (split; [|split; [repeat constructor; cbn; intuition discriminate | reflexivity]]);
    intros n v Hin; cbn in Hin;
    repeat (destruct Hin as [Hin|Hin];
            [inversion Hin; subst; eexists; split; [reflexivity|];
             split; [intros E; try rewrite E in *; discriminate | cbn; tauto]|]);
    destruct Hin.
Qed.

Lemma deploy_form_parts_witness :
  exists file rest,
    snd (deploy_form html_only []) = inr (("file", file) :: rest)
    /\ rest = [].
Proof.
  destruct (deploy_form_parts html_only []) as (file & rest & H & _ & _ & _ & Hrest).
  exists file, rest. split; [exact H | exact Hrest].
Defined.

Lemma slug_segment_safe_witness :
  percent_decode (encodeURIComponent "my bakery/2") = "my bakery/2"
  /\ encodeURIComponent "my bakery/2" = "my%20bakery%2F2".
Proof.
  split; [|reflexivity].
  apply (proj1 (proj2 (proj2 (slug_segment_safe "my bakery/2")))).
Defined.

Lemma leads_query_parameters_witness :
  leads_query {| gl_slug := "my-bakery"; gl_status := Some "new&limit=500";
                 gl_limit := Some 2%Z |}
  = "status=new%26limit%3D500&limit=2".
Proof.
  apply (proj1 (leads_query_parameters
                  {| gl_slug := "my-bakery"; gl_status := Some "new&limit=500";
                     gl_limit := Some 2%Z |})).
Defined.

(** ** No retry *)

(** X20: a call makes at most one network call, whatever the host and the
    answer: nothing is retried.  It makes none when the credential is
    absent and none when the call is an [update_page] without any
    provided field. *)
Theorem at_most_one_network_call host op :
  (network_calls (fst (run (handler host op))) <= 1)%nat
  /\ (API_KEY host = EmptyString \/ reaches_transport op = false ->
      network_calls (fst (run (handler host op))) = 0%nat).
Proof.
  unfold run.
  destruct (string_dec (API_KEY host) EmptyString) as [Hkey|Hkey].
  { rewrite handler_trace_no_key by exact Hkey. cbn [app].
    rewrite bundling_no_fetch. split; [lia | reflexivity]. }
  destruct (reaches_transport op) eqn:Hreach.
  - rewrite handler_trace by assumption. cbn [app].
    rewrite network_calls_app, bundling_no_fetch. cbn. split; [lia|].
    intros [H|H]; [contradiction | discriminate].
  - rewrite handler_trace_short_circuit by exact Hreach. cbn. split; [lia | reflexivity].
Qed.

Lemma at_most_one_network_call_witness :
  network_calls (fst (run (handler (stub_host None Unreachable)
                             (Op_get_page "my-bakery")))) = 0%nat.
Proof.
  apply (proj2 (at_most_one_network_call (stub_host None Unreachable)
                  (Op_get_page "my-bakery"))).
  now left.
Defined.
